(** * CRYPTS: the filter pipeline and the UI state of [crypts.py]

    A shallow embedding of [src/crypts.py].  The program keeps one global
    dictionary [STATE], builds five windows once in [main], and the body
    window ([_define_body]) fetches the market page, selects table rows
    with a row limit, a name filter and two price filters, and renders
    them.

    Python values are dynamically typed, so the embedding carries a small
    universe of Python values ([Py.pyval]), Python exceptions as an error
    monad ([Py.result]) and the few builtins the program calls
    ([str.lower], [in], [float], slicing, truthiness, [<]).  The parsed
    page is a tree of BeautifulSoup elements ([Bs4.node]).

    Text is modelled by [string]; one [ascii] stands for one code point
    in U+0000..U+00FF, and the builtins below are Python's restricted to
    that range. *)

From Stdlib Require Import ZArith QArith List String Ascii Bool Lia.
Import ListNotations.

Local Open Scope Z_scope.

(* ================================================================== *)
(** * Python builtins used by the program *)
(* ================================================================== *)

Module Py.

(** The exception classes the program can raise. *)
Inductive exn : Set :=
| AttributeError
| IndexError
| TypeError
| ValueError.

(** A computation either returns a value or raises. *)
Inductive result (A : Type) : Type :=
| Return (a : A)
| Raise (e : exn).

Arguments Return {A} a.
Arguments Raise {A} e.

Definition bind {A B : Type} (c : result A) (k : A -> result B) : result B :=
  match c with
  | Return a => k a
  | Raise e => Raise e
  end.

(** ** Strings *)

Definition code (c : ascii) : Z := Z.of_N (N_of_ascii c).

Definition chr (z : Z) : ascii := ascii_of_N (Z.to_N z).

Definition in_range (lo hi : Z) (c : ascii) : bool :=
  (lo <=? code c) && (code c <=? hi).

(** [str.lower] on one code point below U+0100: A-Z, and the Latin-1
    capitals U+00C0..U+00DE except the multiplication sign U+00D7, move
    up by 32; everything else is unchanged. *)
Definition lower_char (c : ascii) : ascii :=
  if in_range 65 90 c || in_range 192 214 c || in_range 216 222 c
  then chr (code c + 32)
  else c.

(** [s.lower()] *)
Fixpoint lower (s : string) : string :=
  match s with
  | EmptyString => EmptyString
  | String c s' => String (lower_char c) (lower s')
  end.

(** [s.startswith(p)] *)
Fixpoint startswith (p s : string) : bool :=
  match p, s with
  | EmptyString, _ => true
  | String a p', String b s' => Ascii.eqb a b && startswith p' s'
  | String _ _, EmptyString => false
  end.

(** [needle in hay] for two [str] operands: [needle] occurs in [hay] as
    a contiguous run of characters. *)
Fixpoint contains (needle hay : string) : bool :=
  startswith needle hay ||
  match hay with
  | EmptyString => false
  | String _ hay' => contains needle hay'
  end.

(** [s.endswith(suffix)]: [suffix] is [s] or the end of [s] from some
    later position on. *)
Fixpoint endswith (suffix s : string) : bool :=
  String.eqb s suffix ||
  match s with
  | EmptyString => false
  | String _ s' => endswith suffix s'
  end.

(** ** Floats

    A Python [float] is an IEEE-754 binary64.  The value of a finite one
    is a rational number and is kept as such; the sign of a zero is not
    kept (no operation of the program can observe it). *)
Inductive pyfloat : Set :=
| Finite (q : Q)
| Infinity (negative : bool)
| NaN.

Definition round_half_even (n d : Z) : Z :=
  let q := n / d in
  match (2 * (n mod d) ?= d) with
  | Lt => q
  | Gt => q + 1
  | Eq => if Z.even q then q else q + 1
  end.

(** The rational [m * 2^e]. *)
Definition dyadic (m e : Z) : Q :=
  if 0 <=? e then inject_Z (m * 2 ^ e) else Qmake m (Z.to_pos (2 ^ (- e))).

(** The binary64 nearest to [n / d] for [0 <= n] and [0 < d], ties to
    even: 53 significant bits, the least exponent -1074 (subnormals),
    and infinity from [2^1024] on. *)
Definition binary64_round (n d : Z) : pyfloat :=
  if n =? 0 then Finite 0 else
  let quot e := if 0 <=? e then n / (d * 2 ^ e) else (n * 2 ^ (- e)) / d in
  let e0 := Z.log2 n - Z.log2 d - 53 in
  let e1 := if quot e0 <? 2 ^ 53 then e0 else e0 + 1 in
  let e := Z.max e1 (- 1074) in
  let m := if 0 <=? e then round_half_even n (d * 2 ^ e)
           else round_half_even (n * 2 ^ (- e)) d in
  if (0 <=? e) && (2 ^ 1024 <=? m * 2 ^ e) then Infinity false
  else Finite (dyadic m e).

Definition float_neg (f : pyfloat) : pyfloat :=
  match f with
  | Finite q => Finite (Qopp q)
  | Infinity s => Infinity (negb s)
  | NaN => NaN
  end.

(** The binary64 nearest to [m * 10^e], [0 <= m]. *)
Definition decimal_to_float (m e : Z) : pyfloat :=
  if 0 <=? e then binary64_round (m * 10 ^ e) 1
  else binary64_round m (10 ^ (- e)).

Definition is_digit (c : ascii) : bool := in_range 48 57 c.

(** What [float] strips from both ends of its argument. *)
Definition float_space (c : ascii) : bool :=
  in_range 9 13 c || (code c =? 32) || (code c =? 133) || (code c =? 160).

Fixpoint lstrip (s : list ascii) : list ascii :=
  match s with
  | c :: s' => if float_space c then lstrip s' else s
  | [] => []
  end.

Definition strip (s : list ascii) : list ascii :=
  rev (lstrip (rev (lstrip s))).

Definition is_underscore (c : ascii) : bool := code c =? 95.

(** An underscore is allowed only between two digits. *)
Fixpoint underscores_ok (prev : ascii) (s : list ascii) : bool :=
  match s with
  | [] => negb (is_underscore prev)
  | c :: s' =>
      (if is_underscore c then is_digit prev
       else negb (is_underscore prev) || is_digit c)
      && underscores_ok c s'
  end.

(** Splits a leading run of digits off: its value, its length, the rest. *)
Fixpoint digits (acc : Z) (len : Z) (s : list ascii) : Z * Z * list ascii :=
  match s with
  | c :: s' =>
      if is_digit c then digits (10 * acc + (code c - 48)) (len + 1) s'
      else (acc, len, s)
  | [] => (acc, len, [])
  end.

Definition sign (s : list ascii) : bool * list ascii :=
  match s with
  | c :: s' =>
      if code c =? 45 then (true, s')
      else if code c =? 43 then (false, s')
      else (false, s)
  | [] => (false, [])
  end.

(** The exponent part: empty, or [e] or [E], an optional sign and at
    least one digit, up to the end of the text. *)
Definition exponent (s : list ascii) : option Z :=
  match s with
  | [] => Some 0
  | c :: s' =>
      if (code c =? 101) || (code c =? 69) then
        let '(neg, s1) := sign s' in
        match digits 0 0 s1 with
        | (v, len, []) =>
            if 0 <? len then Some (if neg then - v else v) else None
        | _ => None
        end
      else None
  end.

(** An unsigned decimal number: digits, an optional point and digits (at
    least one digit in all), an optional exponent. *)
Definition decimal (s : list ascii) : option pyfloat :=
  let '(ip, ilen, s1) := digits 0 0 s in
  let '(m, flen, s2) :=
    match s1 with
    | c :: s1' => if code c =? 46 then digits ip 0 s1' else (ip, 0, s1)
    | [] => (ip, 0, [])
    end in
  if 0 <? ilen + flen then
    match exponent s2 with
    | Some e => Some (decimal_to_float m (e - flen))
    | None => None
    end
  else None.

Definition lower_list (s : list ascii) : string :=
  lower (string_of_list_ascii s).

(** [inf], [infinity] or [nan] in any letter case. *)
Definition inf_or_nan (s : list ascii) : option pyfloat :=
  let w := lower_list s in
  if String.eqb w "inf" || String.eqb w "infinity" then Some (Infinity false)
  else if String.eqb w "nan" then Some NaN
  else None.

(** [float(s)] for a [str] argument. *)
Definition float_of_str (s : string) : result pyfloat :=
  let t := strip (list_ascii_of_string s) in
  if underscores_ok (chr 0) t then
    let u := filter (fun c => negb (is_underscore c)) t in
    let '(neg, body) := sign u in
    let r := match inf_or_nan body with
             | Some f => Some f
             | None => decimal body
             end in
    match r with
    | Some f => Return (if neg then float_neg f else f)
    | None => Raise ValueError
    end
  else Raise ValueError.

(** ** Dynamically typed values

    The values the entries of [STATE] can hold: the initial ones are
    [False], two [int]s, [None] and two more [int]s; a callback stores
    whatever value the widget hands it. *)
Inductive pyval : Set :=
| VNone
| VBool (b : bool)
| VInt (z : Z)
| VFloat (f : pyfloat)
| VStr (s : string).

(** [bool(v)], the test of [if v:] *)
Definition truthy (v : pyval) : bool :=
  match v with
  | VNone => false
  | VBool b => b
  | VInt z => negb (z =? 0)
  | VFloat (Finite q) => negb (Qeq_bool q 0)
  | VFloat _ => true
  | VStr s => negb (String.eqb s "")
  end.

(** [x or y] *)
Definition or_ (x y : pyval) : pyval := if truthy x then x else y.

(** The number a value stands for in a comparison; [bool] is a subclass
    of [int], and an [int] is compared with a [float] by its exact
    value. *)
Definition number (v : pyval) : option pyfloat :=
  match v with
  | VBool b => Some (Finite (if b then 1 else 0)%Q)
  | VInt z => Some (Finite (inject_Z z))
  | VFloat f => Some f
  | VNone | VStr _ => None
  end.

Definition Qltb (p q : Q) : bool :=
  match (p ?= q)%Q with
  | Lt => true
  | _ => false
  end.

(** [a < b] on numbers; every comparison with a NaN is false. *)
Definition float_lt (a b : pyfloat) : bool :=
  match a, b with
  | NaN, _ | _, NaN => false
  | Finite p, Finite q => Qltb p q
  | Finite _, Infinity negative => negb negative
  | Infinity negative, Finite _ => negative
  | Infinity n1, Infinity n2 => n1 && negb n2
  end.

(** [v < x] where [x] is a number: a [TypeError] unless [v] is one. *)
Definition lt (v : pyval) (x : pyfloat) : result bool :=
  match number v with
  | Some a => Return (float_lt a x)
  | None => Raise TypeError
  end.

(** [v > x] where [x] is a number. *)
Definition gt (v : pyval) (x : pyfloat) : result bool :=
  match number v with
  | Some a => Return (float_lt x a)
  | None => Raise TypeError
  end.

(** [l[:v]] *)
Definition slice_to {A : Type} (l : list A) (v : pyval) : result (list A) :=
  let upto (z : Z) :=
    if 0 <=? z then firstn (Z.to_nat z) l
    else firstn (Z.to_nat (Z.of_nat (List.length l) + z)) l in
  match v with
  | VNone => Return l
  | VBool b => Return (upto (if b then 1 else 0))
  | VInt z => Return (upto z)
  | VFloat _ | VStr _ => Raise TypeError
  end.

(** [l[i]] for a literal index [i >= 0] *)
Definition index {A : Type} (l : list A) (i : nat) : result A :=
  match nth_error l i with
  | Some x => Return x
  | None => Raise IndexError
  end.

(** [v.lower()]: only [str] has the method. *)
Definition lower_method (v : pyval) : result string :=
  match v with
  | VStr s => Return (lower s)
  | _ => Raise AttributeError
  end.

(** [s.lower()] where [s] may be [None]. *)
Definition lower_opt (s : option string) : result string :=
  match s with
  | Some s => Return (lower s)
  | None => Raise AttributeError
  end.

End Py.

Declare Scope py_scope.
Delimit Scope py_scope with py.
Notation "x <- c ;; k" := (Py.bind c (fun x => k))
  (at level 61, c at next level, right associativity) : py_scope.

Import Py.
Local Open Scope py_scope.
Local Open Scope string_scope.

(** [[x for x in l if cond(x)]]: the condition is evaluated element by
    element, left to right, and the first exception ends the whole
    comprehension. *)
Fixpoint comprehension {A : Type} (cond : A -> result bool) (l : list A)
  : result (list A) :=
  match l with
  | [] => Return []
  | x :: l' =>
      b <- cond x ;;
      r <- comprehension cond l' ;;
      Return (if b then x :: r else r)
  end.

(** [for x in l: out.append(f(x))] *)
Fixpoint for_each {A B : Type} (f : A -> result B) (l : list A)
  : result (list B) :=
  match l with
  | [] => Return []
  | x :: l' =>
      y <- f x ;;
      r <- for_each f l' ;;
      Return (y :: r)
  end.

(* ================================================================== *)
(** * The parsed page *)
(* ================================================================== *)

Module Bs4.

(** A page element: a run of text, or a tag with its name, its CSS
    classes and its children.  Comments and the other special strings
    of a page are not modelled. *)
#[warnings="-register-all"] Inductive node : Set :=
| NavigableString (s : string)
| Tag (name : string) (class_ : list string) (contents : list node).

(** All elements below [n], in document order. *)
Fixpoint descendants (n : node) : list node :=
  match n with
  | NavigableString _ => []
  | Tag _ _ cs => flat_map (fun c => c :: descendants c) cs
  end.

Definition named (name : string) (n : node) : bool :=
  match n with
  | Tag nm _ _ => String.eqb nm name
  | NavigableString _ => false
  end.

Definition has_class (c : string) (n : node) : bool :=
  match n with
  | Tag _ cls _ => existsb (String.eqb c) cls
  | NavigableString _ => false
  end.

(** [n.get_text()]: every string below [n], concatenated. *)
Fixpoint get_text (n : node) : string :=
  match n with
  | NavigableString s => s
  | Tag _ _ cs => fold_right (fun c acc => get_text c ++ acc) "" cs
  end.

(** [n.string]: the single string under a chain of only children. *)
Fixpoint get_string (n : node) : option string :=
  match n with
  | NavigableString s => Some s
  | Tag _ _ [c] => get_string c
  | Tag _ _ _ => None
  end.

(** [o.name] for a tag name such as [table] or [p]: the first tag of
    that name below [o], or [None]; [o] itself may be [None] or a
    string, which have no such attribute. *)
Definition attr (o : option node) (name : string) : result (option node) :=
  match o with
  | Some (Tag _ _ _ as n) => Return (find (named name) (descendants n))
  | Some (NavigableString _) | None => Raise AttributeError
  end.

(** [o.find_all(name=...)] *)
Definition find_all (o : option node) (name : string) : result (list node) :=
  match o with
  | Some (Tag _ _ _ as n) => Return (filter (named name) (descendants n))
  | Some (NavigableString _) | None => Raise AttributeError
  end.

(** [o.contents] *)
Definition contents (o : option node) : result (list node) :=
  match o with
  | Some (Tag _ _ cs) => Return cs
  | Some (NavigableString _) | None => Raise AttributeError
  end.

(** [o.string] *)
Definition string_ (o : option node) : result (option string) :=
  match o with
  | Some n => Return (get_string n)
  | None => Raise AttributeError
  end.

(** [n.text] *)
Definition text (n : node) : string := get_text n.

(** [n.find(class_=c)]: on a tag, the first tag below it that carries
    the class; on a string, [find] is [str.find], which takes no keyword
    argument. *)
Definition find_class (n : node) (c : string) : result (option node) :=
  match n with
  | Tag _ _ _ => Return (find (has_class c) (descendants n))
  | NavigableString _ => Raise TypeError
  end.

End Bs4.

(* ================================================================== *)
(** * The program *)
(* ================================================================== *)

Module Crypts.

Import Bs4.

(** ** Application state: the dictionary [STATE] and its six keys *)
Record State : Set := {
  refresh : pyval;
  delay : pyval;
  rows : pyval;
  filter_name : pyval;
  filter_gtprice : pyval;
  filter_ltprice : pyval
}.

Definition STATE : State := {|
  refresh := VBool false;
  delay := VInt 5;
  rows := VInt 10;
  filter_name := VNone;
  filter_gtprice := VInt 0;
  filter_ltprice := VInt 0
|}.

(** The keys a callback can write with [STATE.update({key: v})]. *)
Inductive key : Set :=
| Krefresh | Kdelay | Krows | Kfilter_name | Kfilter_gtprice | Kfilter_ltprice.

(** [STATE.update({k: v})] *)
Definition update (k : key) (v : pyval) (st : State) : State :=
  match k with
  | Krefresh =>
      {| refresh := v; delay := delay st; rows := rows st;
         filter_name := filter_name st;
         filter_gtprice := filter_gtprice st;
         filter_ltprice := filter_ltprice st |}
  | Kdelay =>
      {| refresh := refresh st; delay := v; rows := rows st;
         filter_name := filter_name st;
         filter_gtprice := filter_gtprice st;
         filter_ltprice := filter_ltprice st |}
  | Krows =>
      {| refresh := refresh st; delay := delay st; rows := v;
         filter_name := filter_name st;
         filter_gtprice := filter_gtprice st;
         filter_ltprice := filter_ltprice st |}
  | Kfilter_name =>
      {| refresh := refresh st; delay := delay st; rows := rows st;
         filter_name := v;
         filter_gtprice := filter_gtprice st;
         filter_ltprice := filter_ltprice st |}
  | Kfilter_gtprice =>
      {| refresh := refresh st; delay := delay st; rows := rows st;
         filter_name := filter_name st;
         filter_gtprice := v;
         filter_ltprice := filter_ltprice st |}
  | Kfilter_ltprice =>
      {| refresh := refresh st; delay := delay st; rows := rows st;
         filter_name := filter_name st;
         filter_gtprice := filter_gtprice st;
         filter_ltprice := v |}
  end.

(** ** The screenshot dialog *)

(** The file the manager writes the screenshot to first. *)
Definition tempname : string := ".screenshot_temp.svg".

(** [_finish] in [screenshot], for the text [value] of the input field:
    the name the temporary file is renamed to, which is also the text
    of the toast.
[[
    filename = field.value or "screenshot"
    if not filename.endswith(".svg"):
        filename += ".svg"
]] *)
Definition _finish (value : string) : string :=
  let filename := if String.eqb value "" then "screenshot" else value in
  if endswith ".svg" filename then filename else (filename ++ ".svg")%string.

(** ** Widgets *)

(** A callback receives the widget's new value and acts on [STATE]. *)
Definition callback : Set := pyval -> State -> State.

(** The widgets with the keyword arguments the program gives them.  The
    toolkit's [Checkbox] and [InputField] have no parameter named
    [on_toggle], [on_change] or [default]: a keyword they do not know is
    stored on the widget as an attribute of that name, and stays
    there. *)
Record Checkbox : Set := {
  checked : bool;
  on_toggle : callback
}.

Record InputField : Set := {
  prompt : string;
  default : pyval;
  on_change : callback
}.

(** [_define_header]: the refresh toggle, the delay and the row count. *)
Record Header : Set := {
  header_refresh : Checkbox;
  header_delay : InputField;
  header_rows : InputField
}.

Definition _define_header (st : State) : Header := {|
  header_refresh :=
    {| checked := false; on_toggle := fun val => update Krefresh val |};
  header_delay :=
    {| prompt := "Delay (s): "; default := delay st;
       on_change := fun val => update Kdelay val |};
  header_rows :=
    {| prompt := "Rows : "; default := rows st;
       on_change := fun val => update Krows val |}
|}.

(** [_define_filters]: the name and the two price bounds. *)
Record Filters : Set := {
  filters_name : InputField;
  filters_price_gt : InputField;
  filters_price_lt : InputField
}.

Definition _define_filters (st : State) : Filters := {|
  filters_name :=
    {| prompt := "Name: "; default := filter_name st;
       on_change := fun val => update Kfilter_name (or_ val VNone) |};
  filters_price_gt :=
    {| prompt := "> Price: "; default := filter_gtprice st;
       on_change := fun val => update Kfilter_gtprice val |};
  filters_price_lt :=
    {| prompt := "< Price: "; default := filter_ltprice st;
       on_change := fun val => update Kfilter_ltprice val |}
|}.

(** ** The body: selecting rows *)

(** [coin.contents[2].p.string] *)
Definition coin_name (coin : node) : result (option string) :=
  cs <- contents (Some coin) ;;
  cell <- index cs 2 ;;
  p <- attr (Some cell) "p" ;;
  string_ p.

(** [coin.contents[3].text] *)
Definition coin_price_text (coin : node) : result string :=
  cs <- contents (Some coin) ;;
  cell <- index cs 3 ;;
  Return (text cell).

(** [float(coin.contents[3].text)] *)
Definition coin_price (coin : node) : result pyfloat :=
  t <- coin_price_text coin ;;
  float_of_str t.

(** The row limit:
[[
    if STATE["rows"] > 0:
        coins_raw = coins_raw[:STATE["rows"]]
]] *)
Definition row_limit (st : State) (coins_raw : list node)
  : result (list node) :=
  positive <- gt (rows st) (Finite 0) ;;
  if positive then slice_to coins_raw (rows st) else Return coins_raw.

(** The condition of the name filter:
    [STATE["filter_name"].lower() in coin.contents[2].p.string.lower()] *)
Definition name_cond (st : State) (coin : node) : result bool :=
  needle <- lower_method (filter_name st) ;;
  s <- coin_name coin ;;
  hay <- lower_opt s ;;
  Return (Py.contains needle hay).

(** The name filter:
[[
    if STATE["filter_name"]:
        coins_raw = [coin for coin in coins_raw if ...]
]] *)
Definition name_filter (st : State) (coins_raw : list node)
  : result (list node) :=
  if truthy (filter_name st) then comprehension (name_cond st) coins_raw
  else Return coins_raw.

(** [STATE["filter_gtprice"] < float(coin.contents[3].text)] *)
Definition gtprice_cond (st : State) (coin : node) : result bool :=
  price <- coin_price coin ;;
  lt (filter_gtprice st) price.

(** [STATE["filter_ltprice"] > float(coin.contents[3].text)] *)
Definition ltprice_cond (st : State) (coin : node) : result bool :=
  price <- coin_price coin ;;
  gt (filter_ltprice st) price.

(** The lower price bound. *)
Definition gtprice_filter (st : State) (coins_raw : list node)
  : result (list node) :=
  if truthy (filter_gtprice st)
  then comprehension (gtprice_cond st) coins_raw
  else Return coins_raw.

(** The upper price bound. *)
Definition ltprice_filter (st : State) (coins_raw : list node)
  : result (list node) :=
  if truthy (filter_ltprice st)
  then comprehension (ltprice_cond st) coins_raw
  else Return coins_raw.

(** Lines 173-194 of [_define_body]: the four steps, each rebinding
    [coins_raw]. *)
Definition applyFilters (st : State) (coins_raw : list node)
  : result (list node) :=
  coins_raw <- row_limit st coins_raw ;;
  coins_raw <- name_filter st coins_raw ;;
  coins_raw <- gtprice_filter st coins_raw ;;
  ltprice_filter st coins_raw.

(** ** The body: rendering rows *)

Inductive caret : Set := Down | Up.

(** A label's markup, kept in parts: the style tag between the square
    brackets, the caret glyph if any, and the text. *)
Record Label : Set := {
  style : string;
  glyph : option caret;
  label_text : string
}.

(** A splitter with its labels side by side. *)
Inductive widget : Set :=
| Splitter (labels : list Label)
| Plain (s : string).

Definition Window : Set := list widget.

Definition bold_gradient (s : string) : Label :=
  {| style := "bold !gradient(212)"; glyph := None; label_text := s |}.

(** [Label("[rid]▽ " + cell.text) if cell.find(class_="icon-Caret-down")
    else Label("[griin]△ " + cell.text)] for [cell = coin.contents[i]] *)
Definition trend_label (cs : list node) (i : nat) : result Label :=
  cell <- index cs i ;;
  marker <- find_class cell "icon-Caret-down" ;;
  match marker with
  | Some _ =>
      Return {| style := "rid"; glyph := Some Down; label_text := text cell |}
  | None =>
      Return {| style := "griin"; glyph := Some Up; label_text := text cell |}
  end.

(** The body of the loop [for coin in coins_raw]. *)
Definition render_row (coin : node) : result widget :=
  cs <- contents (Some coin) ;;
  name_cell <- index cs 2 ;;
  let name := bold_gradient (text name_cell) in
  price <- trend_label cs 3 ;;
  last_hour <- trend_label cs 4 ;;
  last_day <- trend_label cs 5 ;;
  cap_cell <- index cs 7 ;;
  p <- attr (Some cap_cell) "p" ;;
  pcs <- contents p ;;
  first <- index pcs 0 ;;
  let market_cap :=
    {| style := "bold"; glyph := None; label_text := text first |} in
  Return (Splitter [name; price; last_hour; last_day; market_cap]).

Definition table_header : widget :=
  Splitter [bold_gradient "NAME"; bold_gradient "PRICE"; bold_gradient "1h%";
            bold_gradient "24%"; bold_gradient "MARKET CAP"].

(** [soup.table.tbody.find_all(name="tr")] *)
Definition table_rows (soup : node) : result (list node) :=
  table <- attr (Some soup) "table" ;;
  tbody <- attr table "tbody" ;;
  find_all tbody "tr".

(** [_define_body], from the parsed page on. *)
Definition _define_body (st : State) (soup : node) : result Window :=
  coins_raw <- table_rows soup ;;
  coins_raw <- applyFilters st coins_raw ;;
  rendered <- for_each render_row coins_raw ;;
  Return (table_header :: Plain "" :: rendered).

(** ** The application *)

(** What the window manager holds once [main] has added the windows.
    [cycles] counts the calls of [_define_body], each of which fetches
    the page once. *)
Record App : Set := {
  state : State;
  header : Header;
  filters : Filters;
  body : Window;
  cycles : nat;
  running : bool
}.

(** [main]: the windows are built once, in this order, from the initial
    [STATE]; an exception of [_define_body] leaves the [with] block and
    ends the process. *)
Definition main (soup : node) : result App :=
  let h := _define_header STATE in
  let f := _define_filters STATE in
  b <- _define_body STATE soup ;;
  Return {| state := STATE; header := h; filters := f; body := b;
            cycles := 1; running := true |}.

(** What can happen while the manager runs: the user toggles the
    checkbox or edits a field, so that the widget shows [val]; a footer
    button is pressed; or time passes.  The program registers no
    timer. *)
Inductive event : Set :=
| Toggled (val : pyval)
| DelayChanged (val : pyval)
| RowsChanged (val : pyval)
| NameChanged (val : pyval)
| PriceGtChanged (val : pyval)
| PriceLtChanged (val : pyval)
| RefreshNowPressed
| ScreenshotPressed
| QuitPressed (yes : bool)
| Elapsed (seconds : Z).

Definition stop (app : App) : App :=
  {| state := state app; header := header app; filters := filters app;
     body := body app; cycles := cycles app; running := false |}.

(** One event of the manager's loop.  A toggle or an edit changes the
    widget's own mark or text, which the program never reads back; the
    attributes [on_toggle] and [on_change] are called by nobody, neither
    by the toolkit nor by the program, so [STATE] stays as it is.  Of
    the buttons, Refresh Now runs [lambda *_: None], Screenshot and Quit
    open their dialogs, and a confirmed Quit stops the manager. *)
Definition handle (ev : event) (app : App) : App :=
  if running app then
    match ev with
    | Toggled _ => app
    | DelayChanged _ => app
    | RowsChanged _ => app
    | NameChanged _ => app
    | PriceGtChanged _ => app
    | PriceLtChanged _ => app
    | RefreshNowPressed => app
    | ScreenshotPressed => app
    | QuitPressed yes => if yes then stop app else app
    | Elapsed _ => app
    end
  else app.

Definition run (evs : list event) (app : App) : App :=
  fold_left (fun a ev => handle ev a) evs app.

End Crypts.

(* ================================================================== *)
(** * Sample pages *)
(* ================================================================== *)

Module Sample.

Import Bs4 Crypts.

Definition td (cs : list node) : node := Tag "td" [] cs.

Definition span (cls : list string) (cs : list node) : node :=
  Tag "span" cls cs.

(** A table row laid out as the program expects it: the name in the
    third cell under a [p], the price in the fourth, the two changes in
    the fifth and sixth, the market cap in the eighth under a [p]. *)
Definition coin (name price : string) (down : bool) : node :=
  Tag "tr" []
    [ td [];
      td [NavigableString "1"];
      td [Tag "div" [] [Tag "p" ["coin-name"] [NavigableString name]]];
      td [Tag "div" []
            ((if down then [span ["icon-Caret-down"] []] else [])
             ++ [span [] [NavigableString price]])];
      td [span [] [span ["icon-Caret-up"] []; NavigableString "0.10%"]];
      td [span [] [span ["icon-Caret-down"] []; NavigableString "2.30%"]];
      td [];
      td [Tag "p" [] [span [] [NavigableString "1.2T"];
                      span [] [NavigableString "1200000000000"]]] ].

(** A row whose cells after the second are missing. *)
Definition broken : node :=
  Tag "tr" [] [td []; td [NavigableString "2"]].

Definition page (trs : list node) : node :=
  Tag "[document]" []
    [Tag "html" []
       [Tag "body" []
          [Tag "table" []
             [Tag "thead" [] [Tag "tr" [] []]; Tag "tbody" [] trs]]]].

(** A page without any table. *)
Definition no_table : node :=
  Tag "[document]" [] [Tag "html" [] [Tag "body" [] []]].

Definition bitcoin : node := coin "Bitcoin" "50000.5" false.
Definition ethereum : node := coin "Ethereum" "3000" true.
Definition bitcoin_cash : node := coin "Bitcoin Cash" "400" false.

Definition three : list node := [bitcoin; ethereum; bitcoin_cash].

Definition numbered (i : nat) : node :=
  coin (String (ascii_of_nat (65 + i)) "coin") "10" false.

(** Twelve rows, named Acoin .. Lcoin. *)
Definition twelve : list node := map numbered (seq 0 12).

(** A row whose price text carries a currency sign and a thousands
    separator, and the same price in plain digits. *)
Definition dollar : node := coin "Priced" "$1,234.56" false.
Definition plain : node := coin "Priced" "1234.56" false.

Definition with_rows (n : Z) (st : State) : State := update Krows (VInt n) st.
Definition with_name (s : string) (st : State) : State :=
  update Kfilter_name (VStr s) st.
Definition with_min (g : Z) (st : State) : State :=
  update Kfilter_gtprice (VInt g) st.
Definition with_max (h : Z) (st : State) : State :=
  update Kfilter_ltprice (VInt h) st.

End Sample.

(* ================================================================== *)
(** * Order and selection on lists *)
(* ================================================================== *)

(** [subseq s l]: [s] is [l] with some elements left out, the others in
    their order. *)
Inductive subseq {A : Type} : list A -> list A -> Prop :=
| subseq_nil : subseq [] []
| subseq_skip : forall x s l, subseq s l -> subseq s (x :: l)
| subseq_keep : forall x s l, subseq s l -> subseq (x :: s) (x :: l).

(** The order of the extended reals on float values; a NaN is below
    nothing and nothing is below it. *)
Definition float_below (a b : pyfloat) : Prop :=
  match a, b with
  | Finite p, Finite q => (p < q)%Q
  | Finite _, Infinity negative => negative = false
  | Infinity negative, Finite _ => negative = true
  | Infinity n1, Infinity n2 => n1 = true /\ n2 = false
  | NaN, _ | _, NaN => False
  end.

(** [needle] occurs in [hay]: some text before it and some after. *)
Definition occurs_in (needle hay : string) : Prop :=
  exists before after : string, hay = (before ++ needle ++ after)%string.

(** The characters that can occur in a text [float] accepts: digits,
    the blanks it strips, the signs, the point, the underscore, the
    exponent letter, and the letters of [inf], [infinity] and [nan] in
    either case. *)
Definition float_char (c : ascii) : bool :=
  is_digit c || float_space c
  || (code c =? 43)%Z || (code c =? 45)%Z || (code c =? 46)%Z
  || (code c =? 95)%Z || (code c =? 101)%Z || (code c =? 69)%Z
  || existsb (Ascii.eqb (lower_char c)) (list_ascii_of_string "infinityan").

(** The name filter's test on one row, for a filter text [s]: the row's
    name is there and contains [s], both in lower case. *)
Definition name_matches (s : string) (coin : Bs4.node) : Prop :=
  exists nm, Crypts.coin_name coin = Return (Some nm) /\
             occurs_in (lower s) (lower nm).

Definition name_matchesb (s : string) (coin : Bs4.node) : bool :=
  match Crypts.coin_name coin with
  | Return (Some nm) => Py.contains (lower s) (lower nm)
  | _ => false
  end.

(** The row's price text is a number strictly above the bound [v]. *)
Definition price_above (v : pyval) (coin : Bs4.node) : Prop :=
  exists a p, number v = Some a /\ Crypts.coin_price coin = Return p /\
              float_below a p.

(** The row's price text is a number strictly below the bound [v]. *)
Definition price_under (v : pyval) (coin : Bs4.node) : Prop :=
  exists a p, number v = Some a /\ Crypts.coin_price coin = Return p /\
              float_below p a.

(** [p] is the beginning of [l]. *)
Definition prefix_of {A : Type} (p l : list A) : Prop :=
  exists rest : list A, l = (p ++ rest)%list.

(** [s] ends with [suffix]. *)
Definition has_suffix (suffix s : string) : Prop :=
  exists before : string, s = (before ++ suffix)%string.

(** The marker of a falling value is somewhere below the cell. *)
Definition marked_down (cell : Bs4.node) : Prop :=
  exists d, In d (Bs4.descendants cell) /\
            Bs4.has_class "icon-Caret-down" d = true.

(* ================================================================== *)
(** * Lemmas on the builtins *)
(* ================================================================== *)

Local Open Scope Z_scope.

Section ListFacts.

Context {A : Type}.

Lemma subseq_refl (l : list A) : subseq l l.
Proof. induction l; constructor; assumption. Qed.

Lemma subseq_nil_l (l : list A) : subseq [] l.
Proof. induction l; constructor; assumption. Qed.

Lemma subseq_trans (a b c : list A) :
  subseq a b -> subseq b c -> subseq a c.
Proof.
  intros Hab Hbc. revert a Hab.
  induction Hbc as [| x s l _ IH | x s l _ IH]; intros a Hab.
  - assumption.
  - apply subseq_skip, IH, Hab.
  - inversion Hab; subst.
    + apply subseq_skip, IH. assumption.
    + apply subseq_keep, IH. assumption.
Qed.

Lemma subseq_In (s l : list A) (x : A) : subseq s l -> In x s -> In x l.
Proof.
  induction 1 as [| y s l _ IH | y s l _ IH]; simpl; intros Hx.
  - assumption.
  - right. apply IH, Hx.
  - destruct Hx as [-> | Hx]; [left; reflexivity | right; apply IH, Hx].
Qed.

Lemma subseq_length (s l : list A) :
  subseq s l -> (List.length s <= List.length l)%nat.
Proof. induction 1; simpl; lia. Qed.

Lemma subseq_firstn (n : nat) (l : list A) : subseq (firstn n l) l.
Proof.
  revert n. induction l as [| x l IH]; intros [| n]; simpl.
  - constructor.
  - constructor.
  - apply subseq_nil_l.
  - apply subseq_keep, IH.
Qed.

Lemma subseq_filter (p : A -> bool) (l : list A) : subseq (filter p l) l.
Proof.
  induction l as [| x l IH]; simpl.
  - constructor.
  - destruct (p x); constructor; assumption.
Qed.

(** A comprehension whose condition never raises is [filter]. *)
Lemma comprehension_filter (cond : A -> result bool) (p : A -> bool)
  (l : list A) :
  (forall x, In x l -> cond x = Return (p x)) ->
  comprehension cond l = Return (filter p l).
Proof.
  induction l as [| x l IH]; simpl; intros H.
  - reflexivity.
  - rewrite (H x (or_introl eq_refl)). simpl.
    rewrite IH by (intros y Hy; apply H; right; exact Hy).
    reflexivity.
Qed.

(** What a comprehension that returned has done: the condition returned
    on every element, and exactly those with [True] were kept, in
    order. *)
Lemma comprehension_Return (cond : A -> result bool) (l out : list A) :
  comprehension cond l = Return out ->
  (forall x, In x l -> exists b, cond x = Return b) /\
  (forall x, In x out <-> In x l /\ cond x = Return true) /\
  subseq out l.
Proof.
  revert out. induction l as [| x l IH]; simpl; intros out H.
  - injection H as <-. split; [| split].
    + intros x [].
    + intros x. simpl. tauto.
    + constructor.
  - destruct (cond x) as [b |] eqn:Hx; simpl in H; [| discriminate].
    destruct (comprehension cond l) as [r |] eqn:Hl; simpl in H;
      [| discriminate].
    injection H as <-.
    destruct (IH r eq_refl) as (Hall & Hiff & Hsub).
    split; [| split].
    + intros y [<- | Hy]; [exists b; exact Hx | apply Hall, Hy].
    + intros y. destruct b; simpl; rewrite ?Hiff.
      * split.
        -- intros [<- | [Hy Hc]]; [split; [left; reflexivity | exact Hx] |].
           split; [right; exact Hy | exact Hc].
        -- intros [[<- | Hy] Hc]; [left; reflexivity | right; split; assumption].
      * split.
        -- intros [Hy Hc]. split; [right; exact Hy | exact Hc].
        -- intros [[<- | Hy] Hc]; [congruence | split; assumption].
    + destruct b; constructor; exact Hsub.
Qed.

(** One element on which the condition raises ends the comprehension
    with an exception. *)
Lemma comprehension_Raise (cond : A -> result bool) (l : list A) (x : A)
  (e : exn) :
  In x l -> cond x = Raise e -> exists e', comprehension cond l = Raise e'.
Proof.
  induction l as [| y l IH]; simpl; intros Hin Hx; [contradiction |].
  destruct (cond y) as [b |] eqn:Hy; simpl; [| eexists; reflexivity].
  destruct Hin as [-> | Hin]; [congruence |].
  destruct (IH Hin Hx) as [e' ->]. simpl. eexists; reflexivity.
Qed.

Lemma for_each_Return {B : Type} (f : A -> result B) (l : list A)
  (out : list B) :
  for_each f l = Return out ->
  List.length out = List.length l /\
  forall x, In x l -> exists y, f x = Return y.
Proof.
  revert out. induction l as [| x l IH]; simpl; intros out H.
  - injection H as <-. split; [reflexivity | contradiction].
  - destruct (f x) as [y |] eqn:Hx; simpl in H; [| discriminate].
    destruct (for_each f l) as [r |] eqn:Hl; simpl in H; [| discriminate].
    injection H as <-. destruct (IH r eq_refl) as [Hlen Hall].
    split; [simpl; congruence |].
    intros z [<- | Hz]; [exists y; exact Hx | apply Hall, Hz].
Qed.

Lemma for_each_Raise {B : Type} (f : A -> result B) (l : list A) (x : A)
  (e : exn) :
  In x l -> f x = Raise e -> exists e', for_each f l = Raise e'.
Proof.
  induction l as [| y l IH]; simpl; intros Hin Hx; [contradiction |].
  destruct (f y) as [b |] eqn:Hy; simpl; [| eexists; reflexivity].
  destruct Hin as [-> | Hin]; [congruence |].
  destruct (IH Hin Hx) as [e' ->]. simpl. eexists; reflexivity.
Qed.

End ListFacts.

Lemma bind_Return {A B : Type} (c : result A) (k : A -> result B) (b : B) :
  Py.bind c k = Return b -> exists a, c = Return a /\ k a = Return b.
Proof.
  destruct c as [a | e]; simpl; intros H; [| discriminate].
  exists a. split; [reflexivity | exact H].
Qed.

Lemma bind_Raise {A B : Type} (c : result A) (k : A -> result B) (e : exn) :
  c = Raise e -> Py.bind c k = Raise e.
Proof. intros ->. reflexivity. Qed.

(** Splits a hypothesis [x <- c ;; k = Return b] into its two runs. *)
Ltac bind_inv H :=
  let a := fresh "a" in
  let Ha := fresh "Ha" in
  apply bind_Return in H; destruct H as (a & Ha & H).

Lemma Qltb_lt (p q : Q) : Qltb p q = true <-> (p < q)%Q.
Proof.
  unfold Qltb. rewrite Qlt_alt.
  destruct (p ?= q)%Q; split; congruence.
Qed.

Lemma Qltb_inject_Z (a b : Z) : Qltb (inject_Z a) (inject_Z b) = (a <? b)%Z.
Proof.
  unfold Qltb, Qcompare, inject_Z. simpl. rewrite !Z.mul_1_r.
  unfold Z.ltb. destruct (a ?= b); reflexivity.
Qed.

Lemma float_lt_below (a b : pyfloat) :
  float_lt a b = true <-> float_below a b.
Proof.
  destruct a as [p | [] |], b as [q | [] |]; simpl;
    try apply Qltb_lt; intuition congruence.
Qed.

(** [v > 0] for an [int]. *)
Lemma gt_zero_int (n : Z) : gt (VInt n) (Finite 0) = Return (0 <? n)%Z.
Proof.
  unfold gt. simpl. f_equal. apply (Qltb_inject_Z 0 n).
Qed.

Lemma startswith_prefix (p s : string) :
  startswith p s = true <-> exists after, s = (p ++ after)%string.
Proof.
  revert s. induction p as [| a p IH]; intros s; simpl.
  - split; [intros _; exists s; reflexivity | reflexivity].
  - destruct s as [| b s].
    + split; [discriminate | intros [after H]; discriminate].
    + rewrite andb_true_iff, Ascii.eqb_eq, IH. split.
      * intros [-> [after ->]]. exists after. reflexivity.
      * intros [after H]. injection H as -> ->. split; [reflexivity |].
        exists after. reflexivity.
Qed.

(** [in] on two strings decides occurrence. *)
Lemma contains_occurs (needle hay : string) :
  Py.contains needle hay = true <-> occurs_in needle hay.
Proof.
  unfold occurs_in. induction hay as [| c hay IH].
  - simpl. rewrite orb_false_r, startswith_prefix. split.
    + intros [after H]. exists EmptyString, after. exact H.
    + intros (before & after & H). destruct before; simpl in H.
      * exists after. exact H.
      * discriminate.
  - change (Py.contains needle (String c hay))
      with (startswith needle (String c hay) || Py.contains needle hay).
    rewrite orb_true_iff, startswith_prefix, IH. split.
    + intros [[after H] | (before & after & H)].
      * exists EmptyString, after. exact H.
      * exists (String c before), after. simpl. rewrite H. reflexivity.
    + intros (before & after & H). destruct before as [| b before]; simpl in H.
      * left. exists after. exact H.
      * right. injection H as -> H. exists before, after. exact H.
Qed.

Lemma slice_to_subseq {A : Type} (l out : list A) (v : pyval) :
  slice_to l v = Return out -> subseq out l.
Proof.
  destruct v as [| b | z | f | s]; simpl; intros H;
    try discriminate; injection H as <-.
  - apply subseq_refl.
  - destruct (_ <=? _); apply subseq_firstn.
  - destruct (_ <=? _); apply subseq_firstn.
Qed.

(** ** What [float] accepts *)

Lemma lstrip_In (c : ascii) (s : list ascii) :
  In c s -> float_space c = true \/ In c (lstrip s).
Proof.
  induction s as [| d s IH]; simpl; [tauto |].
  intros [<- | Hin].
  - destruct (float_space d) eqn:E; [left; reflexivity | right; left; reflexivity].
  - destruct (float_space d); [apply IH, Hin | right; right; exact Hin].
Qed.

Lemma strip_In (c : ascii) (s : list ascii) :
  In c s -> float_space c = true \/ In c (strip s).
Proof.
  intros Hin. unfold strip.
  destruct (lstrip_In c s Hin) as [H | H]; [left; exact H |].
  apply in_rev in H.
  destruct (lstrip_In c _ H) as [H' | H']; [left; exact H' |].
  right. apply in_rev in H'. exact H'.
Qed.

Lemma sign_In (c : ascii) (s body : list ascii) (neg : bool) :
  sign s = (neg, body) ->
  In c s -> code c = 45 \/ code c = 43 \/ In c body.
Proof.
  destruct s as [| d s]; simpl; [tauto |].
  destruct (code d =? 45) eqn:E45; [| destruct (code d =? 43) eqn:E43];
    intros H; injection H as _ <-; intros Hin; try tauto.
  - destruct Hin as [<- | Hin]; [left; apply Z.eqb_eq, E45 | tauto].
  - destruct Hin as [<- | Hin]; [right; left; apply Z.eqb_eq, E43 | tauto].
  - right. right. exact Hin.
Qed.

Lemma digits_In (c : ascii) (s rest : list ascii) (acc len v len' : Z) :
  digits acc len s = (v, len', rest) ->
  In c s -> is_digit c = true \/ In c rest.
Proof.
  revert acc len. induction s as [| d s IH]; simpl; intros acc len H Hin;
    [tauto |].
  destruct (is_digit d) eqn:E.
  - destruct Hin as [<- | Hin]; [left; exact E | eapply IH; eassumption].
  - injection H as _ _ <-. right. exact Hin.
Qed.

Lemma exponent_In (c : ascii) (s : list ascii) (e : Z) :
  exponent s = Some e ->
  In c s ->
  code c = 101 \/ code c = 69 \/ code c = 45 \/ code c = 43 \/
  is_digit c = true.
Proof.
  destruct s as [| d s]; simpl; [tauto |].
  destruct ((code d =? 101) || (code d =? 69)) eqn:E; [| discriminate].
  destruct (sign s) as [neg s1] eqn:Hsign.
  destruct (digits 0 0 s1) as [[v len] rest] eqn:Hd.
  destruct rest; [| discriminate]. intros _ [<- | Hin].
  - apply orb_true_iff in E. rewrite !Z.eqb_eq in E. tauto.
  - destruct (sign_In c s s1 neg Hsign Hin) as [H | [H | H]]; try tauto.
    destruct (digits_In c s1 [] 0 0 v len Hd H) as [H' | []]. tauto.
Qed.

Lemma decimal_In (c : ascii) (s : list ascii) (f : pyfloat) :
  decimal s = Some f ->
  In c s ->
  is_digit c = true \/ code c = 46 \/
  code c = 101 \/ code c = 69 \/ code c = 45 \/ code c = 43.
Proof.
  unfold decimal. destruct (digits 0 0 s) as [[ip ilen] s1] eqn:Hd.
  intros H Hin.
  destruct (digits_In c s s1 0 0 ip ilen Hd Hin) as [Hc | Hc]; [tauto |].
  assert (Hexp : forall s2 e, exponent s2 = Some e -> In c s2 ->
                 is_digit c = true \/ code c = 46 \/
                 code c = 101 \/ code c = 69 \/ code c = 45 \/ code c = 43).
  { intros s2 e He Hin2.
    pose proof (exponent_In c s2 e He Hin2). tauto. }
  destruct s1 as [| d s1']; [contradiction |].
  destruct (code d =? 46) eqn:E46.
  - destruct (digits ip 0 s1') as [[m flen] s2] eqn:Hd2.
    destruct (0 <? ilen + flen); [| discriminate].
    destruct (exponent s2) as [e |] eqn:He; [| discriminate].
    destruct Hc as [<- | Hc]; [right; left; apply Z.eqb_eq, E46 |].
    destruct (digits_In c s1' s2 ip 0 m flen Hd2 Hc) as [Hc' | Hc'];
      [tauto | eapply Hexp; eassumption].
  - destruct (0 <? ilen + 0); [| discriminate].
    destruct (exponent (d :: s1')) as [e |] eqn:He; [| discriminate].
    eapply Hexp; eassumption.
Qed.

Lemma lower_list_In (c : ascii) (s : list ascii) :
  In c s -> In (lower_char c) (list_ascii_of_string (lower_list s)).
Proof.
  unfold lower_list. induction s as [| d s IH]; simpl; [tauto |].
  intros [<- | Hin]; [left; reflexivity | right; apply IH, Hin].
Qed.

Lemma inf_or_nan_In (c : ascii) (s : list ascii) (f : pyfloat) :
  inf_or_nan s = Some f ->
  In c s ->
  In (lower_char c) (list_ascii_of_string "infinityan").
Proof.
  unfold inf_or_nan. intros H Hin. apply lower_list_In in Hin.
  destruct (String.eqb (lower_list s) "inf") eqn:E1.
  { apply String.eqb_eq in E1. rewrite E1 in Hin. simpl in *. tauto. }
  destruct (String.eqb (lower_list s) "infinity") eqn:E2.
  { apply String.eqb_eq in E2. rewrite E2 in Hin. simpl in *. tauto. }
  destruct (String.eqb (lower_list s) "nan") eqn:E3; [| discriminate].
  apply String.eqb_eq in E3. rewrite E3 in Hin. simpl in *. tauto.
Qed.

(** [float] accepts a text only if all its characters are among
    [float_char]. *)
Lemma float_of_str_chars (s : string) (f : pyfloat) (c : ascii) :
  float_of_str s = Return f ->
  In c (list_ascii_of_string s) -> float_char c = true.
Proof.
  unfold float_of_str. intros H Hin.
  assert (Hor : forall b1 b2 b3 b4 b5 b6 b7 b8 b9 : bool,
             b1 = true \/ b2 = true \/ b3 = true \/ b4 = true \/ b5 = true \/
             b6 = true \/ b7 = true \/ b8 = true \/ b9 = true ->
             b1 || b2 || b3 || b4 || b5 || b6 || b7 || b8 || b9 = true).
  { intros [] [] [] [] [] [] [] [] []; simpl; intuition discriminate. }
  unfold float_char. apply Hor. rewrite !Z.eqb_eq. clear Hor.
  destruct (strip_In c _ Hin) as [Hc | Hc]; [tauto |].
  destruct (underscores_ok (chr 0) (strip (list_ascii_of_string s)));
    [| discriminate].
  destruct (is_underscore c) eqn:Eu.
  { apply Z.eqb_eq in Eu. tauto. }
  assert (Hu : In c (filter (fun c => negb (is_underscore c))
                       (strip (list_ascii_of_string s)))).
  { apply filter_In. split; [exact Hc | rewrite Eu; reflexivity]. }
  destruct (sign _) as [neg body] eqn:Hsign.
  destruct (sign_In c _ body neg Hsign Hu) as [Hb | [Hb | Hb]]; try tauto.
  destruct (inf_or_nan body) as [g |] eqn:Hinf.
  - pose proof (inf_or_nan_In c body g Hinf Hb) as Hl.
    do 8 right. apply existsb_exists. exists (lower_char c).
    split; [exact Hl | apply Ascii.eqb_refl].
  - destruct (decimal body) as [g |] eqn:Hdec; [| discriminate].
    pose proof (decimal_In c body g Hdec Hb). tauto.
Qed.

Lemma float_of_str_exn (s : string) (e : exn) :
  float_of_str s = Raise e -> e = ValueError.
Proof.
  unfold float_of_str. destruct (underscores_ok _ _); [| congruence].
  destruct (sign _) as [neg body].
  destruct (inf_or_nan body); [discriminate |].
  destruct (decimal body); [discriminate | congruence].
Qed.

(** A text with a character outside [float_char] is a [ValueError]. *)
Lemma float_of_str_rejects (s : string) (c : ascii) :
  In c (list_ascii_of_string s) -> float_char c = false ->
  float_of_str s = Raise ValueError.
Proof.
  intros Hin Hc. destruct (float_of_str s) as [f | e] eqn:H.
  - rewrite (float_of_str_chars s f c H Hin) in Hc. discriminate.
  - f_equal. apply (float_of_str_exn s e H).
Qed.

(* ================================================================== *)
(** * The four steps of the filter *)
(* ================================================================== *)

Section Steps.

Import Bs4 Crypts.

Variable st : State.

Lemma row_limit_subseq (l out : list node) :
  row_limit st l = Return out -> subseq out l.
Proof.
  unfold row_limit. intros H. bind_inv H. destruct a.
  - eapply slice_to_subseq, H.
  - injection H as <-. apply subseq_refl.
Qed.

Lemma name_filter_subseq (l out : list node) :
  name_filter st l = Return out -> subseq out l.
Proof.
  unfold name_filter. destruct (truthy _); intros H.
  - apply comprehension_Return in H. apply H.
  - injection H as <-. apply subseq_refl.
Qed.

Lemma gtprice_filter_subseq (l out : list node) :
  gtprice_filter st l = Return out -> subseq out l.
Proof.
  unfold gtprice_filter. destruct (truthy _); intros H.
  - apply comprehension_Return in H. apply H.
  - injection H as <-. apply subseq_refl.
Qed.

Lemma ltprice_filter_subseq (l out : list node) :
  ltprice_filter st l = Return out -> subseq out l.
Proof.
  unfold ltprice_filter. destruct (truthy _); intros H.
  - apply comprehension_Return in H. apply H.
  - injection H as <-. apply subseq_refl.
Qed.

(** A run of [applyFilters] that returns went through the four steps in
    their order. *)
Lemma applyFilters_steps (l out : list node) :
  applyFilters st l = Return out ->
  exists l1 l2 l3,
    row_limit st l = Return l1 /\
    name_filter st l1 = Return l2 /\
    gtprice_filter st l2 = Return l3 /\
    ltprice_filter st l3 = Return out.
Proof.
  unfold applyFilters. intros H.
  bind_inv H. bind_inv H. bind_inv H.
  eauto 8.
Qed.

Lemma truthy_str (s : string) : s <> "" -> truthy (VStr s) = true.
Proof.
  intros Hs. simpl. destruct (String.eqb s "") eqn:E; [| reflexivity].
  apply String.eqb_eq in E. contradiction.
Qed.

(** The name condition, with a [str] in [STATE["filter_name"]]. *)
Lemma name_cond_true (s : string) (coin : node) :
  filter_name st = VStr s ->
  name_cond st coin = Return true <-> name_matches s coin.
Proof.
  intros Hs. unfold name_cond, name_matches. rewrite Hs. simpl.
  destruct (coin_name coin) as [[nm |] | e]; simpl.
  - split.
    + intros H. injection H as H. exists nm.
      split; [reflexivity | apply contains_occurs, H].
    + intros (nm' & Hnm & H). injection Hnm as <-.
      apply contains_occurs in H. rewrite H. reflexivity.
  - split; [discriminate | intros (nm & H & _); discriminate].
  - split; [discriminate | intros (nm & H & _); discriminate].
Qed.

Lemma name_cond_named (s : string) (coin : node) :
  filter_name st = VStr s ->
  (exists nm, coin_name coin = Return (Some nm)) ->
  name_cond st coin = Return (name_matchesb s coin).
Proof.
  intros Hs [nm Hnm]. unfold name_cond, name_matchesb.
  rewrite Hs, Hnm. reflexivity.
Qed.

Lemma name_matchesb_true (s : string) (coin : node) :
  name_matchesb s coin = true <-> name_matches s coin.
Proof.
  unfold name_matchesb, name_matches.
  destruct (coin_name coin) as [[nm |] | e].
  - split.
    + intros H. exists nm. split; [reflexivity | apply contains_occurs, H].
    + intros (nm' & Hnm & H). injection Hnm as <-. apply contains_occurs, H.
  - split; [discriminate | intros (nm & H & _); discriminate].
  - split; [discriminate | intros (nm & H & _); discriminate].
Qed.

(** The two price conditions. *)
Lemma gtprice_cond_true (coin : node) :
  gtprice_cond st coin = Return true <-> price_above (filter_gtprice st) coin.
Proof.
  unfold gtprice_cond, price_above, lt.
  destruct (coin_price coin) as [p | e]; simpl.
  - destruct (number (filter_gtprice st)) as [a |].
    + split.
      * intros H. injection H as H. exists a, p.
        repeat split. apply float_lt_below, H.
      * intros (a' & p' & Ha & Hp & H). injection Ha as <-.
        injection Hp as <-. apply float_lt_below in H. rewrite H. reflexivity.
    + split; [discriminate | intros (a & p' & Ha & _); discriminate].
  - split; [discriminate | intros (a & p' & _ & Hp & _); discriminate].
Qed.

Lemma ltprice_cond_true (coin : node) :
  ltprice_cond st coin = Return true <-> price_under (filter_ltprice st) coin.
Proof.
  unfold ltprice_cond, price_under, gt.
  destruct (coin_price coin) as [p | e]; simpl.
  - destruct (number (filter_ltprice st)) as [a |].
    + split.
      * intros H. injection H as H. exists a, p.
        repeat split. apply float_lt_below, H.
      * intros (a' & p' & Ha & Hp & H). injection Ha as <-.
        injection Hp as <-. apply float_lt_below in H. rewrite H. reflexivity.
    + split; [discriminate | intros (a & p' & Ha & _); discriminate].
  - split; [discriminate | intros (a & p' & _ & Hp & _); discriminate].
Qed.

(** What each price step keeps, when it returns. *)
Lemma gtprice_filter_In (l out : list node) (coin : node) :
  gtprice_filter st l = Return out ->
  In coin out <->
  In coin l /\
  (truthy (filter_gtprice st) = true -> price_above (filter_gtprice st) coin).
Proof.
  unfold gtprice_filter. destruct (truthy (filter_gtprice st)); intros H.
  - apply comprehension_Return in H. destruct H as (_ & Hiff & _).
    rewrite Hiff, gtprice_cond_true. tauto.
  - injection H as <-. intuition discriminate.
Qed.

Lemma ltprice_filter_In (l out : list node) (coin : node) :
  ltprice_filter st l = Return out ->
  In coin out <->
  In coin l /\
  (truthy (filter_ltprice st) = true -> price_under (filter_ltprice st) coin).
Proof.
  unfold ltprice_filter. destruct (truthy (filter_ltprice st)); intros H.
  - apply comprehension_Return in H. destruct H as (_ & Hiff & _).
    rewrite Hiff, ltprice_cond_true. tauto.
  - injection H as <-. intuition discriminate.
Qed.

Lemma name_filter_In (s : string) (l out : list node) (coin : node) :
  filter_name st = VStr s -> s <> "" ->
  name_filter st l = Return out ->
  In coin out <-> In coin l /\ name_matches s coin.
Proof.
  intros Hs Hne. unfold name_filter. rewrite Hs, (truthy_str s Hne).
  intros H. apply comprehension_Return in H. destruct H as (_ & Hiff & _).
  rewrite Hiff, (name_cond_true s coin Hs). tauto.
Qed.

(** With the price bounds unset the run is the row limit and the name
    filter, and the price text is not read. *)
Lemma applyFilters_name_only (l : list node) :
  truthy (filter_gtprice st) = false ->
  truthy (filter_ltprice st) = false ->
  applyFilters st l = (l1 <- row_limit st l ;; name_filter st l1).
Proof.
  intros Hgt Hlt. unfold applyFilters.
  destruct (row_limit st l) as [l1 | e]; simpl; [| reflexivity].
  destruct (name_filter st l1) as [l2 | e]; simpl; [| reflexivity].
  unfold gtprice_filter. rewrite Hgt. simpl.
  unfold ltprice_filter. rewrite Hlt. reflexivity.
Qed.

(** The name filter on rows that all have a name string is [filter]. *)
Lemma name_filter_named (s : string) (l : list node) :
  filter_name st = VStr s -> s <> "" ->
  (forall coin, In coin l -> exists nm, coin_name coin = Return (Some nm)) ->
  name_filter st l = Return (filter (name_matchesb s) l).
Proof.
  intros Hs Hne Hall. unfold name_filter. rewrite Hs, (truthy_str s Hne).
  apply comprehension_filter. intros coin Hin.
  apply (name_cond_named s coin Hs), Hall, Hin.
Qed.

(** With a price bound set, one row whose price cannot be read ends
    the price steps with an exception. *)
Lemma price_steps_Raise (l2 : list node) (coin : node) (e : exn) :
  In coin l2 -> coin_price coin = Raise e ->
  truthy (filter_gtprice st) = true \/ truthy (filter_ltprice st) = true ->
  exists e', (l3 <- gtprice_filter st l2 ;; ltprice_filter st l3) = Raise e'.
Proof.
  intros Hin Hp Hset.
  assert (Hg : gtprice_cond st coin = Raise e)
    by (unfold gtprice_cond; rewrite Hp; reflexivity).
  assert (Hl : ltprice_cond st coin = Raise e)
    by (unfold ltprice_cond; rewrite Hp; reflexivity).
  unfold gtprice_filter.
  destruct (truthy (filter_gtprice st)) eqn:Egt.
  - destruct (comprehension_Raise _ l2 coin e Hin Hg) as [e' ->].
    exists e'. reflexivity.
  - simpl. destruct Hset as [Hset | Hset]; [discriminate |].
    unfold ltprice_filter. rewrite Hset.
    apply (comprehension_Raise _ l2 coin e Hin Hl).
Qed.

(** The row limit with an [int] in [STATE["rows"]]. *)
Lemma row_limit_int (n : Z) (l : list node) :
  rows st = VInt n -> 0 <= n ->
  row_limit st l = Return (if (0 <? n)%Z then firstn (Z.to_nat n) l else l).
Proof.
  intros Hrows Hn. unfold row_limit. rewrite Hrows, gt_zero_int. simpl.
  destruct (0 <? n)%Z eqn:Hpos; [| reflexivity].
  simpl. destruct (0 <=? n)%Z eqn:Hle; [reflexivity | lia].
Qed.

End Steps.

Lemma firstn_min {A : Type} (n : Z) (l : list A) :
  0 <= n ->
  firstn (Z.to_nat n) l =
  firstn (Z.to_nat (Z.min n (Z.of_nat (List.length l)))) l.
Proof.
  intros Hn. destruct (Z.le_ge_cases n (Z.of_nat (List.length l))) as [H | H].
  - rewrite Z.min_l by exact H. reflexivity.
  - rewrite Z.min_r by exact H. rewrite Nat2Z.id, firstn_all.
    apply firstn_all2. lia.
Qed.

(** A numeric bound is falsy exactly when it is zero. *)
Lemma truthy_number_zero (v : pyval) (q : Q) :
  number v = Some (Finite q) -> (truthy v = false <-> (q == 0)%Q).
Proof.
  destruct v as [| b | z | [p | |] | s]; simpl; intros H;
    try discriminate; injection H as <-.
  - destruct b; split; try reflexivity; try discriminate.
  - unfold Qeq, inject_Z. simpl. rewrite Z.mul_1_r, negb_false_iff.
    apply Z.eqb_eq.
  - rewrite negb_false_iff. apply Qeq_bool_iff.
Qed.

(* ================================================================== *)
(** * The filter engine *)
(* ================================================================== *)

Section FilterEngine.

Import Bs4 Crypts.

(** C1.  With an integer row limit [n >= 0] in [STATE["rows"]] and the
    name filter and both price bounds unset, [applyFilters] returns: for
    [n > 0] exactly the first [min n |input|] rows in their order, so at
    most [n] rows; for [n = 0] all rows. *)
Theorem row_limit_takes_first_rows (st : State) (l : list node) (n : Z) :
  rows st = VInt n -> 0 <= n ->
  truthy (filter_name st) = false ->
  truthy (filter_gtprice st) = false ->
  truthy (filter_ltprice st) = false ->
  exists out,
    applyFilters st l = Return out /\
    (0 < n ->
       out = firstn (Z.to_nat (Z.min n (Z.of_nat (List.length l)))) l /\
       Z.of_nat (List.length out) = Z.min n (Z.of_nat (List.length l)) /\
       Z.of_nat (List.length out) <= n) /\
    (n = 0 -> out = l /\ List.length out = List.length l).
Proof.
  intros Hrows Hn Hname Hgt Hlt.
  unfold applyFilters. rewrite (row_limit_int st n l Hrows Hn). simpl.
  unfold name_filter. rewrite Hname. simpl.
  unfold gtprice_filter. rewrite Hgt. simpl.
  unfold ltprice_filter. rewrite Hlt.
  eexists. split; [reflexivity |]. split.
  - intros Hpos. apply Z.ltb_lt in Hpos. rewrite Hpos.
    rewrite <- firstn_min by exact Hn.
    split; [reflexivity |]. rewrite length_firstn. lia.
  - intros ->. simpl. split; reflexivity.
Qed.

(** Scenario A: twelve rows and a row limit of five give the first five
    rows. *)
Lemma row_limit_takes_first_rows_witness :
  exists out,
    applyFilters (Sample.with_rows 5 STATE) Sample.twelve = Return out /\
    out = firstn 5 Sample.twelve /\ List.length out = 5%nat.
Proof.
  destruct (row_limit_takes_first_rows (Sample.with_rows 5 STATE)
              Sample.twelve 5 eq_refl ltac:(lia) eq_refl eq_refl eq_refl)
    as (out & Hrun & Hpos & _).
  destruct (Hpos ltac:(lia)) as (Hout & Hlen & _).
  exists out. split; [exact Hrun |]. split; [exact Hout |].
  rewrite Hout. reflexivity.
Defined.

(** C9.  Whatever the configuration, a run of [applyFilters] that
    returns hands back input rows only, unchanged, and in their input
    order: the output is a subsequence of the input. *)
Theorem filters_return_subsequence (st : State) (l out : list node) :
  applyFilters st l = Return out ->
  subseq out l /\ (forall coin, In coin out -> In coin l).
Proof.
  intros H. assert (Hsub : subseq out l).
  { destruct (applyFilters_steps st l out H) as (l1 & l2 & l3 & H1 & H2 & H3 & H4).
    eapply subseq_trans; [eapply ltprice_filter_subseq, H4 |].
    eapply subseq_trans; [eapply gtprice_filter_subseq, H3 |].
    eapply subseq_trans; [eapply name_filter_subseq, H2 |].
    eapply row_limit_subseq, H1. }
  split; [exact Hsub |]. intros coin. apply subseq_In, Hsub.
Qed.

Lemma filters_return_subsequence_witness :
  subseq [Sample.bitcoin; Sample.bitcoin_cash] Sample.three /\
  (forall coin, In coin [Sample.bitcoin; Sample.bitcoin_cash] ->
                In coin Sample.three).
Proof.
  apply (filters_return_subsequence (Sample.with_name "bit" STATE)).
  vm_compute. reflexivity.
Defined.

(** C5.  With a non-empty text [s] in [STATE["filter_name"]]: every row
    that [applyFilters] returns has a name that contains [s], letter
    case ignored (both are lowered); and with the price bounds unset the
    rows returned are exactly the rows left by the row limit whose name
    matches, a result that is returned whenever those rows all have a
    name string. *)
Theorem name_filter_keeps_matching_rows (st : State) (s : string)
  (l : list node) :
  filter_name st = VStr s -> s <> "" ->
  (forall out coin,
     applyFilters st l = Return out -> In coin out -> name_matches s coin) /\
  (forall l1,
     row_limit st l = Return l1 ->
     truthy (filter_gtprice st) = false ->
     truthy (filter_ltprice st) = false ->
     (forall out coin,
        applyFilters st l = Return out ->
        (In coin out <-> In coin l1 /\ name_matches s coin)) /\
     ((forall coin, In coin l1 ->
                    exists nm, coin_name coin = Return (Some nm)) ->
      applyFilters st l = Return (filter (name_matchesb s) l1))).
Proof.
  intros Hs Hne. split.
  - intros out coin H Hin.
    destruct (applyFilters_steps st l out H)
      as (l1 & l2 & l3 & H1 & H2 & H3 & H4).
    apply (subseq_In _ _ coin (ltprice_filter_subseq st _ _ H4)) in Hin.
    apply (subseq_In _ _ coin (gtprice_filter_subseq st _ _ H3)) in Hin.
    apply (name_filter_In st s l1 l2 coin Hs Hne H2) in Hin. apply Hin.
  - intros l1 H1 Hgt Hlt.
    rewrite (applyFilters_name_only st l Hgt Hlt), H1. simpl. split.
    + intros out coin H. apply (name_filter_In st s l1 out coin Hs Hne H).
    + apply (name_filter_named st s l1 Hs Hne).
Qed.

(** Scenario B: of Bitcoin, Ethereum and Bitcoin Cash the text "bit"
    keeps the first and the third. *)
Lemma name_filter_keeps_matching_rows_witness :
  applyFilters (Sample.with_name "bit" STATE) Sample.three
  = Return [Sample.bitcoin; Sample.bitcoin_cash] /\
  name_matches "bit" Sample.bitcoin /\
  name_matches "bit" Sample.bitcoin_cash /\
  ~ name_matches "bit" Sample.ethereum.
Proof.
  pose proof (name_filter_keeps_matching_rows
                (Sample.with_name "bit" STATE) "bit" Sample.three
                eq_refl ltac:(discriminate)) as [Hsound Hexact].
  destruct (Hexact Sample.three eq_refl eq_refl eq_refl) as [Hiff Hrun].
  assert (Hout : applyFilters (Sample.with_name "bit" STATE) Sample.three
                 = Return [Sample.bitcoin; Sample.bitcoin_cash]).
  { rewrite Hrun; [reflexivity |].
    intros coin [<- | [<- | [<- | []]]]; eexists; reflexivity. }
  split; [exact Hout |]. split; [| split].
  - apply (Hsound _ _ Hout). simpl. tauto.
  - apply (Hsound _ _ Hout). simpl. tauto.
  - intros Hm.
    assert (Hin : In Sample.ethereum [Sample.bitcoin; Sample.bitcoin_cash]).
    { apply (Hiff _ _ Hout). split; [simpl; tauto | exact Hm]. }
    destruct Hin as [E | [E | []]]; discriminate E.
Defined.

(** C2.  A run of [applyFilters] that returns is the row limit, then the
    name filter on its result, then the lower price bound, then the
    upper one, each result a subsequence of the one before; an exception
    of the row limit is the run's.  With a row limit [n > 0] and a name
    text the rows returned are the matching rows among the first [n],
    not the first [n] matching rows; so two rows may match in the full
    list while a limit of two returns one. *)
Theorem filters_run_in_fixed_order :
  (forall st l out,
     applyFilters st l = Return out ->
     exists l1 l2 l3,
       row_limit st l = Return l1 /\
       name_filter st l1 = Return l2 /\
       gtprice_filter st l2 = Return l3 /\
       ltprice_filter st l3 = Return out /\
       subseq l1 l /\ subseq l2 l1 /\ subseq l3 l2 /\ subseq out l3) /\
  (forall st l e, row_limit st l = Raise e -> applyFilters st l = Raise e) /\
  (forall st l n s,
     rows st = VInt n -> 0 < n ->
     filter_name st = VStr s -> s <> "" ->
     truthy (filter_gtprice st) = false ->
     truthy (filter_ltprice st) = false ->
     (forall coin, In coin (firstn (Z.to_nat n) l) ->
                   exists nm, coin_name coin = Return (Some nm)) ->
     applyFilters st l
     = Return (filter (name_matchesb s) (firstn (Z.to_nat n) l))) /\
  (exists st l out,
     rows st = VInt 2 /\ filter_name st = VStr "bit" /\
     applyFilters st l = Return out /\
     List.length out = 1%nat /\
     List.length (filter (name_matchesb "bit") l) = 2%nat).
Proof.
  split; [| split; [| split]].
  - intros st l out H.
    destruct (applyFilters_steps st l out H)
      as (l1 & l2 & l3 & H1 & H2 & H3 & H4).
    exists l1, l2, l3. repeat split; try assumption.
    + eapply row_limit_subseq, H1.
    + eapply name_filter_subseq, H2.
    + eapply gtprice_filter_subseq, H3.
    + eapply ltprice_filter_subseq, H4.
  - intros st l e H. unfold applyFilters. rewrite H. reflexivity.
  - intros st l n s Hrows Hn Hs Hne Hgt Hlt Hall.
    rewrite (applyFilters_name_only st l Hgt Hlt).
    rewrite (row_limit_int st n l Hrows) by lia.
    apply Z.ltb_lt in Hn. rewrite Hn. simpl.
    apply (name_filter_named st s _ Hs Hne Hall).
  - exists (Sample.with_name "bit" (Sample.with_rows 2 STATE)), Sample.three,
      [Sample.bitcoin].
    vm_compute. repeat split; reflexivity.
Qed.

Lemma filters_run_in_fixed_order_witness :
  (exists l1 l2 l3,
     row_limit (Sample.with_name "bit" (Sample.with_rows 2 STATE)) Sample.three
     = Return l1 /\
     name_filter (Sample.with_name "bit" (Sample.with_rows 2 STATE)) l1
     = Return l2 /\
     gtprice_filter (Sample.with_name "bit" (Sample.with_rows 2 STATE)) l2
     = Return l3 /\
     ltprice_filter (Sample.with_name "bit" (Sample.with_rows 2 STATE)) l3
     = Return [Sample.bitcoin] /\
     subseq l1 Sample.three /\ subseq l2 l1 /\ subseq l3 l2 /\
     subseq [Sample.bitcoin] l3) /\
  applyFilters (update Krows (VStr "5") STATE) Sample.three
  = Raise TypeError /\
  applyFilters (Sample.with_name "bit" (Sample.with_rows 2 STATE)) Sample.three
  = Return (filter (name_matchesb "bit") (firstn 2 Sample.three)).
Proof.
  destruct filters_run_in_fixed_order as (Hsteps & Hraise & Hlimit & _).
  split; [| split].
  - apply Hsteps. vm_compute. reflexivity.
  - apply Hraise. vm_compute. reflexivity.
  - apply (Hlimit (Sample.with_name "bit" (Sample.with_rows 2 STATE))
             Sample.three 2 "bit" eq_refl ltac:(lia) eq_refl
             ltac:(discriminate) eq_refl eq_refl).
    intros coin [<- | [<- | []]]; eexists; reflexivity.
Defined.

(** C4.  When a run of [applyFilters] returns, every row returned has,
    for each price bound that is set (truthy, that is non-zero), a price
    text that [float] accepts and whose value is strictly beyond the
    bound: above [filter_gtprice], under [filter_ltprice]; the rows
    returned are exactly the rows left by the row limit and the name
    filter that satisfy the set bounds; and a bound of zero is unset and
    its step returns its input. *)
Theorem price_bounds_are_exclusive (st : State) (l out : list node) :
  applyFilters st l = Return out ->
  (forall coin, In coin out ->
     (truthy (filter_gtprice st) = true ->
      price_above (filter_gtprice st) coin) /\
     (truthy (filter_ltprice st) = true ->
      price_under (filter_ltprice st) coin)) /\
  (exists l2,
     (l1 <- row_limit st l ;; name_filter st l1) = Return l2 /\
     forall coin,
       In coin out <->
       In coin l2 /\
       (truthy (filter_gtprice st) = true ->
        price_above (filter_gtprice st) coin) /\
       (truthy (filter_ltprice st) = true ->
        price_under (filter_ltprice st) coin)) /\
  (forall coin g q,
     In coin out -> coin_price coin = Return (Finite q) ->
     filter_gtprice st = VInt g -> g <> 0 -> (inject_Z g < q)%Q) /\
  (forall coin h q,
     In coin out -> coin_price coin = Return (Finite q) ->
     filter_ltprice st = VInt h -> h <> 0 -> (q < inject_Z h)%Q) /\
  (forall v q, number v = Some (Finite q) ->
               (truthy v = false <-> (q == 0)%Q)) /\
  (forall l', truthy (filter_gtprice st) = false ->
              gtprice_filter st l' = Return l') /\
  (forall l', truthy (filter_ltprice st) = false ->
              ltprice_filter st l' = Return l').
Proof.
  intros H.
  destruct (applyFilters_steps st l out H)
    as (l1 & l2 & l3 & H1 & H2 & H3 & H4).
  assert (Hiff : forall coin,
             In coin out <->
             In coin l2 /\
             (truthy (filter_gtprice st) = true ->
              price_above (filter_gtprice st) coin) /\
             (truthy (filter_ltprice st) = true ->
              price_under (filter_ltprice st) coin)).
  { intros coin.
    rewrite (ltprice_filter_In st l3 out coin H4).
    rewrite (gtprice_filter_In st l2 l3 coin H3). tauto. }
  split; [intros coin Hin; apply Hiff, Hin |].
  split; [exists l2; split; [rewrite H1; exact H2 | exact Hiff] |].
  split; [| split; [| split; [| split]]].
  - intros coin g q Hin Hq Hg Hne.
    apply Hiff in Hin. destruct Hin as (_ & Habove & _).
    destruct Habove as (a & p & Ha & Hp & Hlt).
    { rewrite Hg. simpl. apply negb_true_iff, Z.eqb_neq, Hne. }
    rewrite Hg in Ha. injection Ha as <-. rewrite Hq in Hp.
    injection Hp as <-. exact Hlt.
  - intros coin h q Hin Hq Hh Hne.
    apply Hiff in Hin. destruct Hin as (_ & _ & Hunder).
    destruct Hunder as (a & p & Ha & Hp & Hlt).
    { rewrite Hh. simpl. apply negb_true_iff, Z.eqb_neq, Hne. }
    rewrite Hh in Ha. injection Ha as <-. rewrite Hq in Hp.
    injection Hp as <-. exact Hlt.
  - apply truthy_number_zero.
  - intros l' Hf. unfold gtprice_filter. rewrite Hf. reflexivity.
  - intros l' Hf. unfold ltprice_filter. rewrite Hf. reflexivity.
Qed.

(** Prices 50000.5, 3000 and 400 between the bounds 1000 and 40000:
    the second row only. *)
Lemma price_bounds_are_exclusive_witness :
  applyFilters (Sample.with_max 40000 (Sample.with_min 1000 STATE))
    Sample.three = Return [Sample.ethereum] /\
  price_above (VInt 1000) Sample.ethereum /\
  price_under (VInt 40000) Sample.ethereum.
Proof.
  assert (Hrun : applyFilters
                   (Sample.with_max 40000 (Sample.with_min 1000 STATE))
                   Sample.three = Return [Sample.ethereum])
    by (vm_compute; reflexivity).
  split; [exact Hrun |].
  destruct (price_bounds_are_exclusive _ _ _ Hrun) as [Hsound _].
  destruct (Hsound Sample.ethereum (or_introl eq_refl)) as [Ha Hu].
  split; [apply Ha | apply Hu]; reflexivity.
Defined.

(** Both bounds are exclusive: a price equal to the bound is dropped. *)
Example price_equal_to_bound_is_dropped :
  applyFilters (Sample.with_min 3000 STATE) [Sample.ethereum] = Return [] /\
  applyFilters (Sample.with_max 3000 STATE) [Sample.ethereum] = Return [] /\
  applyFilters (Sample.with_min 2999 STATE) [Sample.ethereum]
  = Return [Sample.ethereum] /\
  applyFilters (Sample.with_max 3001 STATE) [Sample.ethereum]
  = Return [Sample.ethereum].
Proof. vm_compute. repeat split; reflexivity. Qed.

(** C3, as the code has it.  The price text goes to [float] as it is:
    a text with a character that no float literal has, such as a
    currency sign or a comma, is a [ValueError].  With a price bound
    set, one such row among those left by the row limit and the name
    filter ends [applyFilters] with an exception, and no rows are
    returned.  With both bounds unset the price text is not read, and
    the row is kept whenever the name filter keeps it.  The price text
    1234.56 is kept under a lower bound of 1000 and dropped under 2000;
    with a dollar sign and a comma in it both runs raise. *)
Theorem price_text_is_parsed_by_float :
  (forall s c, In c (list_ascii_of_string s) -> float_char c = false ->
               float_of_str s = Raise ValueError) /\
  float_char "$" = false /\ float_char "," = false /\
  (forall st l l1 l2 coin e,
     row_limit st l = Return l1 -> name_filter st l1 = Return l2 ->
     In coin l2 -> coin_price coin = Raise e ->
     truthy (filter_gtprice st) = true \/ truthy (filter_ltprice st) = true ->
     exists e', applyFilters st l = Raise e') /\
  (forall st l,
     truthy (filter_gtprice st) = false ->
     truthy (filter_ltprice st) = false ->
     applyFilters st l = (l1 <- row_limit st l ;; name_filter st l1)) /\
  applyFilters (Sample.with_min 1000 STATE) [Sample.plain]
  = Return [Sample.plain] /\
  applyFilters (Sample.with_min 2000 STATE) [Sample.plain] = Return [] /\
  applyFilters (Sample.with_min 1000 STATE) [Sample.dollar]
  = Raise ValueError /\
  applyFilters (Sample.with_min 2000 STATE) [Sample.dollar]
  = Raise ValueError /\
  applyFilters (Sample.with_name "priced" STATE) [Sample.dollar]
  = Return [Sample.dollar].
Proof.
  split; [exact float_of_str_rejects |].
  split; [reflexivity |]. split; [reflexivity |].
  split.
  { intros st l l1 l2 coin e H1 H2 Hin Hp Hset.
    unfold applyFilters. rewrite H1. simpl. rewrite H2. simpl.
    apply (price_steps_Raise st l2 coin e Hin Hp Hset). }
  split; [exact applyFilters_name_only |].
  vm_compute. repeat split; reflexivity.
Qed.

Lemma price_text_is_parsed_by_float_witness :
  float_of_str "$1,234.56" = Raise ValueError /\
  (exists e',
     applyFilters (Sample.with_max 2000 STATE) [Sample.plain; Sample.dollar]
     = Raise e') /\
  applyFilters (Sample.with_name "priced" STATE) [Sample.plain; Sample.dollar]
  = Return [Sample.plain; Sample.dollar].
Proof.
  destruct price_text_is_parsed_by_float
    as (Hrej & _ & _ & Hraise & Hname & _).
  split; [| split].
  - apply (Hrej "$1,234.56" "$"%char); [simpl; tauto | reflexivity].
  - apply (Hraise (Sample.with_max 2000 STATE) _
             [Sample.plain; Sample.dollar] [Sample.plain; Sample.dollar]
             Sample.dollar ValueError).
    + reflexivity.
    + reflexivity.
    + simpl. tauto.
    + vm_compute. reflexivity.
    + right. reflexivity.
  - rewrite Hname by reflexivity. vm_compute. reflexivity.
Defined.

(** C3 as stated fails: the price text "$1,234.56" under a lower bound
    of 1000 is not included; the filter step raises [ValueError]. *)
Lemma currency_price_text_raises :
  applyFilters (Sample.with_min 1000 STATE) [Sample.dollar]
  = Raise ValueError /\
  ~ (exists out,
       applyFilters (Sample.with_min 1000 STATE) [Sample.dollar] = Return out
       /\ In Sample.dollar out).
Proof.
  assert (H : applyFilters (Sample.with_min 1000 STATE) [Sample.dollar]
              = Raise ValueError) by (vm_compute; reflexivity).
  split; [exact H |]. intros (out & Hout & _). rewrite H in Hout.
  discriminate Hout.
Qed.

End FilterEngine.

(* ================================================================== *)
(** * The body window and the application *)
(* ================================================================== *)

Section Application.

Import Bs4 Crypts.

(** A row with fewer than eight cells cannot be rendered. *)
Lemma render_row_short (coin : node) (cs : list node) :
  contents (Some coin) = Return cs -> (List.length cs < 8)%nat ->
  exists e, render_row coin = Raise e.
Proof.
  intros Hcs Hlen. unfold render_row. rewrite Hcs. simpl.
  destruct (index cs 2); simpl; [| eexists; reflexivity].
  destruct (trend_label cs 3); simpl; [| eexists; reflexivity].
  destruct (trend_label cs 4); simpl; [| eexists; reflexivity].
  destruct (trend_label cs 5); simpl; [| eexists; reflexivity].
  unfold index. replace (nth_error cs 7) with (@None node).
  - simpl. eexists; reflexivity.
  - symmetry. apply nth_error_None. lia.
Qed.

Lemma handle_keeps_body (ev : event) (app : App) :
  body (handle ev app) = body app /\ cycles (handle ev app) = cycles app.
Proof.
  unfold handle. destruct (running app); [| split; reflexivity].
  destruct ev as [v | v | v | v | v | v | | | [] | z]; split; reflexivity.
Qed.

Lemma run_keeps_body (evs : list event) (app : App) :
  body (run evs app) = body app /\ cycles (run evs app) = cycles app.
Proof.
  unfold run. revert app. induction evs as [| ev evs IH]; intros app; simpl.
  - split; reflexivity.
  - destruct (IH (handle ev app)) as [Hb Hc].
    destruct (handle_keeps_body ev app) as [Hb' Hc'].
    split; congruence.
Qed.



(** C6, on the code.  [main] runs [_define_body] once.  After it no
    event changes the body window or runs [_define_body] again: not the
    refresh toggle, not the passing of time, not the Refresh Now button;
    and [_define_body] reads neither [STATE["refresh"]] nor
    [STATE["delay"]]. *)
Theorem events_never_start_a_cycle (soup : node) (app : App)
  (evs : list event) :
  main soup = Return app ->
  cycles app = 1%nat /\
  cycles (run evs app) = 1%nat /\
  body (run evs app) = body app /\
  (forall v st page,
     _define_body (update Krefresh v st) page = _define_body st page /\
     _define_body (update Kdelay v st) page = _define_body st page).
Proof.
  intros Hmain. unfold main in Hmain. bind_inv Hmain.
  injection Hmain as <-.
  destruct (run_keeps_body evs
              {| state := STATE; header := _define_header STATE;
                 filters := _define_filters STATE; body := a;
                 cycles := 1; running := true |}) as [Hb Hc].
  split; [reflexivity |]. split; [exact Hc |]. split; [exact Hb |].
  intros v st page. split; reflexivity.
Qed.

(** The checkbox ticked, ten seconds gone and Refresh Now pressed:
    still the one cycle of the start. *)
Lemma events_never_start_a_cycle_witness :
  exists app,
    main (Sample.page Sample.three) = Return app /\
    cycles (run [Toggled (VBool true); Elapsed 5; Elapsed 5;
                 RefreshNowPressed] app) = 1%nat /\
    body (run [Toggled (VBool true); Elapsed 5; Elapsed 5;
               RefreshNowPressed] app) = body app.
Proof.
  destruct (main (Sample.page Sample.three)) as [app |] eqn:Hmain;
    [| vm_compute in Hmain; discriminate Hmain].
  exists app. split; [reflexivity |].
  destruct (events_never_start_a_cycle (Sample.page Sample.three) app
              [Toggled (VBool true); Elapsed 5; Elapsed 5; RefreshNowPressed]
              Hmain) as (_ & Hc & Hb & _).
  split; [exact Hc | exact Hb].
Defined.

(** C7, as the code has it.  Without a [table], or without a [tbody] in
    the first table, [_define_body] raises [AttributeError].  When a row
    selected for display cannot be rendered, as a row with fewer than
    eight cells cannot, [_define_body] raises as well.  In each case no
    window, so no part of the rows, is returned.  [main] does not catch
    the exception: it is the outcome of [main]. *)
Theorem missing_structure_raises_out_of_main :
  (forall st soup,
     attr (Some soup) "table" = Return None ->
     _define_body st soup = Raise AttributeError) /\
  (forall st soup table,
     attr (Some soup) "table" = Return (Some table) ->
     attr (Some table) "tbody" = Return None ->
     _define_body st soup = Raise AttributeError) /\
  (forall st soup trs shown coin e,
     table_rows soup = Return trs ->
     applyFilters st trs = Return shown ->
     In coin shown -> render_row coin = Raise e ->
     exists e', _define_body st soup = Raise e') /\
  (forall coin cs,
     contents (Some coin) = Return cs -> (List.length cs < 8)%nat ->
     exists e, render_row coin = Raise e) /\
  (forall soup e, _define_body STATE soup = Raise e -> main soup = Raise e).
Proof.
  split; [| split; [| split; [| split]]].
  - intros st soup H. unfold _define_body, table_rows. rewrite H. reflexivity.
  - intros st soup table H1 H2. unfold _define_body, table_rows.
    rewrite H1. cbn [Py.bind]. rewrite H2. reflexivity.
  - intros st soup trs shown coin e Hrows Hrun Hin Hr.
    unfold _define_body. rewrite Hrows. simpl. rewrite Hrun. simpl.
    destruct (for_each_Raise render_row shown coin e Hin Hr) as [e' ->].
    exists e'. reflexivity.
  - exact render_row_short.
  - intros soup e H. unfold main. rewrite H. reflexivity.
Qed.

Lemma missing_structure_raises_out_of_main_witness :
  _define_body STATE Sample.no_table = Raise AttributeError /\
  _define_body STATE (Tag "[document]" [] [Tag "table" [] []])
  = Raise AttributeError /\
  (exists e',
     _define_body STATE (Sample.page [Sample.bitcoin; Sample.broken])
     = Raise e') /\
  main Sample.no_table = Raise AttributeError.
Proof.
  destruct missing_structure_raises_out_of_main
    as (Htable & Htbody & Hrow & Hshort & Hmain).
  split; [| split; [| split]].
  - apply Htable. reflexivity.
  - apply (Htbody STATE _ (Tag "table" [] [])); reflexivity.
  - destruct (Hshort Sample.broken _ eq_refl) as [e He]; [simpl; lia |].
    apply (Hrow STATE _ [Sample.bitcoin; Sample.broken]
             [Sample.bitcoin; Sample.broken] Sample.broken e).
    + reflexivity.
    + vm_compute. reflexivity.
    + simpl. tauto.
    + exact He.
  - apply Hmain, Htable. reflexivity.
Defined.

(** C7 as stated fails: on a page without a table the exception is an
    [AttributeError], and it ends [main]; no application is left
    running. *)
Lemma missing_table_ends_main :
  main Sample.no_table = Raise AttributeError /\
  ~ (exists app, main Sample.no_table = Return app).
Proof.
  assert (H : main Sample.no_table = Raise AttributeError)
    by (vm_compute; reflexivity).
  split; [exact H |]. intros [app Happ]. rewrite H in Happ.
  discriminate Happ.
Qed.

(** A missing cell in a row that the row limit cuts off goes unseen. *)
Example missing_cell_beyond_row_limit :
  exists w,
    _define_body (Sample.with_rows 1 STATE)
      (Sample.page [Sample.bitcoin; Sample.broken]) = Return w /\
    List.length w = 3%nat.
Proof. eexists. vm_compute. split; reflexivity. Qed.



(** C10.  The name field's callback stores [val or None]: an empty text
    is stored as [None], after which the name step returns its input
    unchanged; a non-empty text is stored as it is and makes the name
    step run its comprehension. *)
Theorem cleared_name_field_unsets_filter (st0 st : State) (val : pyval)
  (s : string) (l : list node) :
  filter_name (on_change (filters_name (_define_filters st0)) (VStr "") st)
  = VNone /\
  name_filter (on_change (filters_name (_define_filters st0)) (VStr "") st) l
  = Return l /\
  filter_name (on_change (filters_name (_define_filters st0)) val st)
  = (if truthy val then val else VNone) /\
  filter_name (on_change (filters_name (_define_filters st0)) (VStr s) st)
  = (if String.eqb s "" then VNone else VStr s) /\
  name_filter (on_change (filters_name (_define_filters st0)) (VStr s) st) l
  = (if String.eqb s "" then Return l
     else comprehension
            (name_cond
               (on_change (filters_name (_define_filters st0)) (VStr s) st))
            l).
Proof.
  split; [reflexivity |]. split; [reflexivity |]. split; [reflexivity |].
  unfold name_filter. cbn [_define_filters filters_name on_change].
  unfold or_. cbn [truthy].
  destruct (String.eqb s "") eqn:E; cbn [negb update filter_name truthy].
  - split; reflexivity.
  - rewrite E. split; reflexivity.
Qed.

End Application.

(* ================================================================== *)
(** * Further properties of the filter engine *)
(* ================================================================== *)

Section ComprehensionFacts.

Context {A : Type}.

Lemma comprehension_fixed (cond : A -> result bool) (l : list A) :
  (forall x, In x l -> cond x = Return true) ->
  comprehension cond l = Return l.
Proof.
  induction l as [| x l IH]; simpl; intros H; [reflexivity |].
  rewrite (H x (or_introl eq_refl)). simpl.
  rewrite IH by (intros y Hy; apply H; right; exact Hy). reflexivity.
Qed.

Lemma comprehension_app (cond : A -> result bool) (a b out : list A) :
  comprehension cond (a ++ b)%list = Return out ->
  exists oa ob,
    comprehension cond a = Return oa /\
    comprehension cond b = Return ob /\
    out = (oa ++ ob)%list.
Proof.
  revert out. induction a as [| x a IH]; simpl; intros out H.
  - exists [], out. repeat split. exact H.
  - destruct (cond x) as [c |]; simpl in *; [| discriminate].
    destruct (comprehension cond (a ++ b)%list) as [r |] eqn:Hr; simpl in H;
      [| discriminate].
    injection H as <-.
    destruct (IH r eq_refl) as (oa & ob & -> & Hb & ->).
    simpl. destruct c; eexists; exists ob; repeat split; exact Hb.
Qed.

(** A comprehension that returns on a list returns on each of its
    subsequences, with a subsequence of the result. *)
Lemma comprehension_subseq (cond : A -> result bool) (a b ob : list A) :
  subseq a b ->
  comprehension cond b = Return ob ->
  exists oa, comprehension cond a = Return oa /\ subseq oa ob.
Proof.
  intros Hsub. revert ob.
  induction Hsub as [| x s l _ IH | x s l _ IH]; simpl; intros ob H.
  - injection H as <-. exists []. split; [reflexivity | constructor].
  - destruct (cond x) as [c |]; simpl in H; [| discriminate].
    destruct (comprehension cond l) as [r |]; simpl in H; [| discriminate].
    injection H as <-. destruct (IH r eq_refl) as (oa & Hoa & Hs).
    exists oa. split; [exact Hoa |].
    destruct c; [apply subseq_skip |]; exact Hs.
  - destruct (cond x) as [c |]; simpl in *; [| discriminate].
    destruct (comprehension cond l) as [r |]; simpl in H; [| discriminate].
    injection H as <-. destruct (IH r eq_refl) as (oa & -> & Hs).
    simpl. eexists. split; [reflexivity |].
    destruct c; [apply subseq_keep |]; exact Hs.
Qed.

(** A condition that returns wherever another does, and is true only
    where the other is, selects a subsequence of the other's result. *)
Lemma comprehension_narrow (strict loose : A -> result bool)
  (l ol : list A) :
  (forall x b, In x l -> loose x = Return b ->
               exists b', strict x = Return b' /\ (b' = true -> b = true)) ->
  comprehension loose l = Return ol ->
  exists os, comprehension strict l = Return os /\ subseq os ol.
Proof.
  revert ol. induction l as [| x l IH]; simpl; intros ol Hrel H.
  - injection H as <-. exists []. split; [reflexivity | constructor].
  - destruct (loose x) as [b |] eqn:Hx; simpl in H; [| discriminate].
    destruct (comprehension loose l) as [r |]; simpl in H; [| discriminate].
    injection H as <-.
    destruct (Hrel x b (or_introl eq_refl) Hx) as (b' & -> & Himp).
    destruct (IH r) as (os & -> & Hs);
      [intros y c Hy; apply Hrel; right; exact Hy | reflexivity |].
    simpl. eexists. split; [reflexivity |].
    destruct b'.
    + rewrite (Himp eq_refl). apply subseq_keep, Hs.
    + destruct b; [apply subseq_skip |]; exact Hs.
Qed.

Lemma for_each_Forall2 {B : Type} (f : A -> result B) (l : list A)
  (out : list B) :
  for_each f l = Return out -> Forall2 (fun x y => f x = Return y) l out.
Proof.
  revert out. induction l as [| x l IH]; simpl; intros out H.
  - injection H as <-. constructor.
  - destruct (f x) as [y |] eqn:Hx; simpl in H; [| discriminate].
    destruct (for_each f l) as [r |]; simpl in H; [| discriminate].
    injection H as <-. constructor; [exact Hx | apply IH; reflexivity].
Qed.

End ComprehensionFacts.

Section MoreSteps.

Import Bs4 Crypts.

(** The row limit with any [int] in [STATE["rows"]]. *)
Lemma row_limit_any_int (st : State) (n : Z) (l : list node) :
  rows st = VInt n ->
  row_limit st l = Return (if 0 <? n then firstn (Z.to_nat n) l else l).
Proof.
  intros Hrows. unfold row_limit. rewrite Hrows, gt_zero_int. simpl.
  destruct (0 <? n) eqn:Hpos; [| reflexivity].
  apply Z.ltb_lt in Hpos. simpl.
  destruct (0 <=? n) eqn:Hle; [reflexivity | lia].
Qed.

(** What the row limit returned, it returns again on anything that is
    no longer. *)
Lemma row_limit_fixed (st : State) (l l1 out : list node) :
  row_limit st l = Return l1 ->
  (List.length out <= List.length l1)%nat ->
  row_limit st out = Return out.
Proof.
  unfold row_limit. intros H Hlen.
  destruct (gt (rows st) (Finite 0)) as [[] |] eqn:Hgt; simpl in *;
    [| reflexivity | discriminate].
  destruct (rows st) as [| [] | z | f | s]; simpl in *; try discriminate.
  - injection H as <-.
    destruct out as [| a [| b out]]; try reflexivity.
    destruct l; simpl in Hlen; lia.
  - unfold gt in Hgt. simpl in Hgt. injection Hgt as Hgt.
    change (Qltb (inject_Z 0) (inject_Z z) = true) in Hgt.
    rewrite (Qltb_inject_Z 0 z) in Hgt. apply Z.ltb_lt in Hgt.
    destruct (0 <=? z) eqn:Hle; [| lia].
    injection H as <-. rewrite length_firstn in Hlen.
    rewrite firstn_all2 by lia. reflexivity.
Qed.

(** The three selecting steps read [STATE] through their own key only. *)
Lemma name_filter_ext (st st' : State) (l : list node) :
  filter_name st = filter_name st' -> name_filter st l = name_filter st' l.
Proof.
  intros H. unfold name_filter. rewrite H.
  destruct (truthy (filter_name st')); [| reflexivity].
  induction l as [| x l IH]; simpl; [reflexivity |].
  unfold name_cond at 1 3. rewrite H, IH. reflexivity.
Qed.

Lemma gtprice_filter_ext (st st' : State) (l : list node) :
  filter_gtprice st = filter_gtprice st' ->
  gtprice_filter st l = gtprice_filter st' l.
Proof.
  intros H. unfold gtprice_filter. rewrite H.
  destruct (truthy (filter_gtprice st')); [| reflexivity].
  induction l as [| x l IH]; simpl; [reflexivity |].
  unfold gtprice_cond at 1 3. rewrite H, IH. reflexivity.
Qed.

Lemma ltprice_filter_ext (st st' : State) (l : list node) :
  filter_ltprice st = filter_ltprice st' ->
  ltprice_filter st l = ltprice_filter st' l.
Proof.
  intros H. unfold ltprice_filter. rewrite H.
  destruct (truthy (filter_ltprice st')); [| reflexivity].
  induction l as [| x l IH]; simpl; [reflexivity |].
  unfold ltprice_cond at 1 3. rewrite H, IH. reflexivity.
Qed.

(** Each selecting step works through a list piece by piece. *)
Lemma name_filter_app (st : State) (a b out : list node) :
  name_filter st (a ++ b)%list = Return out ->
  exists oa ob, name_filter st a = Return oa /\
                name_filter st b = Return ob /\ out = (oa ++ ob)%list.
Proof.
  unfold name_filter. destruct (truthy _).
  - apply comprehension_app.
  - intros H. injection H as <-. exists a, b. repeat split.
Qed.

Lemma gtprice_filter_app (st : State) (a b out : list node) :
  gtprice_filter st (a ++ b)%list = Return out ->
  exists oa ob, gtprice_filter st a = Return oa /\
                gtprice_filter st b = Return ob /\ out = (oa ++ ob)%list.
Proof.
  unfold gtprice_filter. destruct (truthy _).
  - apply comprehension_app.
  - intros H. injection H as <-. exists a, b. repeat split.
Qed.

Lemma ltprice_filter_app (st : State) (a b out : list node) :
  ltprice_filter st (a ++ b)%list = Return out ->
  exists oa ob, ltprice_filter st a = Return oa /\
                ltprice_filter st b = Return ob /\ out = (oa ++ ob)%list.
Proof.
  unfold ltprice_filter. destruct (truthy _).
  - apply comprehension_app.
  - intros H. injection H as <-. exists a, b. repeat split.
Qed.

(** Each selecting step returns on a subsequence of a list on which it
    returns. *)
Lemma name_filter_mono (st : State) (a b ob : list node) :
  subseq a b -> name_filter st b = Return ob ->
  exists oa, name_filter st a = Return oa /\ subseq oa ob.
Proof.
  unfold name_filter. destruct (truthy _).
  - apply comprehension_subseq.
  - intros Hs H. injection H as <-. exists a. split; [reflexivity | exact Hs].
Qed.

Lemma gtprice_filter_mono (st : State) (a b ob : list node) :
  subseq a b -> gtprice_filter st b = Return ob ->
  exists oa, gtprice_filter st a = Return oa /\ subseq oa ob.
Proof.
  unfold gtprice_filter. destruct (truthy _).
  - apply comprehension_subseq.
  - intros Hs H. injection H as <-. exists a. split; [reflexivity | exact Hs].
Qed.

Lemma ltprice_filter_mono (st : State) (a b ob : list node) :
  subseq a b -> ltprice_filter st b = Return ob ->
  exists oa, ltprice_filter st a = Return oa /\ subseq oa ob.
Proof.
  unfold ltprice_filter. destruct (truthy _).
  - apply comprehension_subseq.
  - intros Hs H. injection H as <-. exists a. split; [reflexivity | exact Hs].
Qed.

End MoreSteps.

Section MoreFilterEngine.

Import Bs4 Crypts.

(** Filtering a result again with the same configuration changes
    nothing: a run of [applyFilters] that returns [out] returns [out]
    on [out]. *)
Theorem filters_are_idempotent (st : State) (l out : list node) :
  applyFilters st l = Return out -> applyFilters st out = Return out.
Proof.
  intros H.
  destruct (applyFilters_steps st l out H)
    as (l1 & l2 & l3 & H1 & H2 & H3 & H4).
  pose proof (ltprice_filter_subseq st _ _ H4) as S4.
  pose proof (gtprice_filter_subseq st _ _ H3) as S3.
  pose proof (name_filter_subseq st _ _ H2) as S2.
  assert (Hlen : (List.length out <= List.length l1)%nat).
  { apply subseq_length.
    eapply subseq_trans; [exact S4 |]. eapply subseq_trans; eassumption. }
  unfold applyFilters.
  rewrite (row_limit_fixed st l l1 out H1 Hlen). simpl.
  assert (Hname : name_filter st out = Return out).
  { unfold name_filter in *. destruct (truthy (filter_name st));
      [| reflexivity].
    apply comprehension_fixed. intros x Hx.
    apply comprehension_Return in H2. destruct H2 as (_ & Hiff & _).
    apply (subseq_In _ _ x S4), (subseq_In _ _ x S3), Hiff in Hx.
    apply Hx. }
  rewrite Hname. simpl.
  assert (Hgt : gtprice_filter st out = Return out).
  { unfold gtprice_filter in *. destruct (truthy (filter_gtprice st));
      [| reflexivity].
    apply comprehension_fixed. intros x Hx.
    apply comprehension_Return in H3. destruct H3 as (_ & Hiff & _).
    apply (subseq_In _ _ x S4), Hiff in Hx. apply Hx. }
  rewrite Hgt. simpl.
  unfold ltprice_filter in *. destruct (truthy (filter_ltprice st));
    [| reflexivity].
  apply comprehension_fixed. intros x Hx.
  apply comprehension_Return in H4. destruct H4 as (_ & Hiff & _).
  apply Hiff in Hx. apply Hx.
Qed.

Lemma filters_are_idempotent_witness :
  applyFilters
    (Sample.with_name "bit" (Sample.with_min 1000 (Sample.with_rows 2 STATE)))
    [Sample.bitcoin] = Return [Sample.bitcoin].
Proof.
  apply (filters_are_idempotent _ Sample.three). vm_compute. reflexivity.
Defined.

(** With an [int] row limit [n > 0] every run that returns, whatever the
    other filters, returns at most [n] rows; with [n <= 0], negative
    values included, the row limit keeps every row. *)
Theorem row_limit_bounds_every_run (st : State) (l out : list node) (n : Z) :
  rows st = VInt n ->
  applyFilters st l = Return out ->
  (0 < n -> Z.of_nat (List.length out) <= n) /\
  (n <= 0 -> row_limit st l = Return l /\ subseq out l).
Proof.
  intros Hrows H.
  destruct (applyFilters_steps st l out H)
    as (l1 & l2 & l3 & H1 & H2 & H3 & H4).
  pose proof (ltprice_filter_subseq st _ _ H4) as S4.
  pose proof (gtprice_filter_subseq st _ _ H3) as S3.
  pose proof (name_filter_subseq st _ _ H2) as S2.
  assert (S : subseq out l1).
  { eapply subseq_trans; [exact S4 |]. eapply subseq_trans; eassumption. }
  rewrite (row_limit_any_int st n l Hrows) in H1. split.
  - intros Hpos. apply Z.ltb_lt in Hpos. rewrite Hpos in H1.
    injection H1 as <-. apply subseq_length in S.
    rewrite length_firstn in S. lia.
  - intros Hneg. assert (E : (0 <? n) = false) by (apply Z.ltb_ge; exact Hneg).
    rewrite E in H1. injection H1 as <-.
    rewrite (row_limit_any_int st n l Hrows), E. split; [reflexivity | exact S].
Qed.

Lemma row_limit_bounds_every_run_witness :
  (0 < 2 -> Z.of_nat (List.length [Sample.bitcoin]) <= 2) /\
  (2 <= 0 ->
   row_limit (Sample.with_name "bit" (Sample.with_rows 2 STATE)) Sample.three
   = Return Sample.three /\ subseq [Sample.bitcoin] Sample.three).
Proof.
  apply (row_limit_bounds_every_run
           (Sample.with_name "bit" (Sample.with_rows 2 STATE))
           Sample.three [Sample.bitcoin] 2 eq_refl).
  vm_compute. reflexivity.
Defined.

(** Raising the row limit, or lifting it, only appends rows: the run
    with the smaller limit returns whenever the run with the larger one
    does, and its result is the beginning of the other's. *)
Theorem larger_row_limit_appends_rows (st st' : State) (l out' : list node)
  (n m : Z) :
  rows st = VInt n -> rows st' = VInt m ->
  0 < n -> n <= m \/ m <= 0 ->
  filter_name st = filter_name st' ->
  filter_gtprice st = filter_gtprice st' ->
  filter_ltprice st = filter_ltprice st' ->
  applyFilters st' l = Return out' ->
  exists out, applyFilters st l = Return out /\ prefix_of out out'.
Proof.
  intros Hn Hm Hpos Hle En Eg El H.
  destruct (applyFilters_steps st' l out' H)
    as (l1 & l2 & l3 & H1 & H2 & H3 & H4).
  rewrite (row_limit_any_int st' m l Hm) in H1. injection H1 as H1.
  assert (Hsplit : l1 = (firstn (Z.to_nat n) l ++ skipn (Z.to_nat n) l1)%list).
  { rewrite <- (firstn_skipn (Z.to_nat n) l1) at 1. f_equal.
    destruct (0 <? m) eqn:Em; subst l1; [| reflexivity].
    apply Z.ltb_lt in Em. rewrite firstn_firstn. f_equal. lia. }
  rewrite Hsplit in H2.
  destruct (name_filter_app st' _ _ _ H2) as (a2 & b2 & Ha2 & _ & ->).
  destruct (gtprice_filter_app st' _ _ _ H3) as (a3 & b3 & Ha3 & _ & ->).
  destruct (ltprice_filter_app st' _ _ _ H4) as (a4 & b4 & Ha4 & _ & ->).
  exists a4. split; [| exists b4; reflexivity].
  unfold applyFilters. rewrite (row_limit_any_int st n l Hn).
  apply Z.ltb_lt in Hpos. rewrite Hpos. simpl.
  rewrite (name_filter_ext st st' _ En), Ha2. simpl.
  rewrite (gtprice_filter_ext st st' _ Eg), Ha3. simpl.
  rewrite (ltprice_filter_ext st st' _ El). exact Ha4.
Qed.

Lemma larger_row_limit_appends_rows_witness :
  exists out,
    applyFilters (Sample.with_name "bit" (Sample.with_rows 2 STATE))
      Sample.three = Return out /\
    prefix_of out [Sample.bitcoin; Sample.bitcoin_cash].
Proof.
  apply (larger_row_limit_appends_rows
           (Sample.with_name "bit" (Sample.with_rows 2 STATE))
           (Sample.with_name "bit" (Sample.with_rows 0 STATE))
           Sample.three _ 2 0 eq_refl eq_refl ltac:(lia)
           ltac:(right; lia) eq_refl eq_refl eq_refl).
  vm_compute. reflexivity.
Defined.

(** An empty row list is returned as it is for every [int] row limit,
    whatever the other keys of [STATE] hold, and a table body without
    rows gives the window with the header line and the blank line
    only. *)
Theorem empty_table_gives_header_only (st : State) (n : Z) :
  rows st = VInt n ->
  applyFilters st [] = Return [] /\
  (forall soup, table_rows soup = Return [] ->
                _define_body st soup = Return [table_header; Plain ""]).
Proof.
  intros Hrows.
  assert (H : applyFilters st [] = Return []).
  { unfold applyFilters. rewrite (row_limit_any_int st n [] Hrows).
    rewrite firstn_nil. destruct (0 <? n); simpl;
      unfold name_filter; destruct (truthy (filter_name st)); simpl;
      unfold gtprice_filter; destruct (truthy (filter_gtprice st)); simpl;
      unfold ltprice_filter; destruct (truthy (filter_ltprice st));
      reflexivity. }
  split; [exact H |].
  intros soup Hs. unfold _define_body. rewrite Hs. simpl. rewrite H.
  reflexivity.
Qed.

Lemma empty_table_gives_header_only_witness :
  applyFilters
    (update Kfilter_gtprice (VStr "cheap")
       (update Kfilter_name (VInt 7) STATE)) [] = Return [] /\
  (forall soup, table_rows soup = Return [] ->
                _define_body
                  (update Kfilter_gtprice (VStr "cheap")
                     (update Kfilter_name (VInt 7) STATE)) soup
                = Return [table_header; Plain ""]).
Proof.
  apply (empty_table_gives_header_only _ 10). reflexivity.
Defined.

(** A row limit that is no number ([None] or a text, as a text field
    hands over) is a [TypeError] for every row list, the empty one
    included; so is a positive [float].  In particular the run after the
    callback of the rows field has stored a text raises. *)
Theorem non_integer_row_limit_raises (st : State) (l : list node) :
  (number (rows st) = None -> applyFilters st l = Raise TypeError) /\
  (forall f, rows st = VFloat f -> float_below (Finite 0) f ->
             applyFilters st l = Raise TypeError) /\
  (forall st0 s,
     applyFilters (on_change (header_rows (_define_header st0)) (VStr s) st) l
     = Raise TypeError).
Proof.
  split; [| split].
  - intros H. unfold applyFilters, row_limit, gt. rewrite H. reflexivity.
  - intros f Hf Hpos. apply float_lt_below in Hpos.
    unfold applyFilters, row_limit, gt. rewrite Hf.
    cbn [number Py.bind]. rewrite Hpos. reflexivity.
  - intros st0 s. reflexivity.
Qed.

Lemma non_integer_row_limit_raises_witness :
  applyFilters (update Krows VNone STATE) Sample.three = Raise TypeError /\
  applyFilters (update Krows (VFloat (Finite (5 # 2))) STATE) Sample.three
  = Raise TypeError.
Proof.
  destruct (non_integer_row_limit_raises (update Krows VNone STATE)
              Sample.three) as (H1 & _ & _).
  destruct (non_integer_row_limit_raises
              (update Krows (VFloat (Finite (5 # 2))) STATE)
              Sample.three) as (_ & H2 & _).
  split; [apply H1; reflexivity |].
  apply (H2 (Finite (5 # 2))); [reflexivity | reflexivity].
Defined.

(** Filter values of the wrong type fail on the first row.  A truthy
    name filter that is no text is an [AttributeError]; a price bound
    that is a non-empty text is an exception, the [TypeError] of the
    comparison once the row's price has been read. *)
Theorem wrongly_typed_filter_values_raise (st : State) (coin : node)
  (l : list node) :
  (truthy (filter_name st) = true ->
   (forall s, filter_name st <> VStr s) ->
   name_filter st (coin :: l) = Raise AttributeError) /\
  (forall s, filter_gtprice st = VStr s -> s <> "" ->
     exists e, gtprice_filter st (coin :: l) = Raise e /\
               (forall p, coin_price coin = Return p -> e = TypeError)) /\
  (forall s, filter_ltprice st = VStr s -> s <> "" ->
     exists e, ltprice_filter st (coin :: l) = Raise e /\
               (forall p, coin_price coin = Return p -> e = TypeError)).
Proof.
  split; [| split].
  - intros Ht Hns. unfold name_filter. rewrite Ht. simpl.
    unfold name_cond.
    destruct (filter_name st) as [| b | z | f | s]; try reflexivity.
    exfalso. apply (Hns s). reflexivity.
  - intros s Hs Hne. unfold gtprice_filter.
    rewrite Hs, (truthy_str s Hne). simpl. unfold gtprice_cond.
    destruct (coin_price coin) as [p | e]; simpl.
    + rewrite Hs. simpl. exists TypeError. split; reflexivity.
    + exists e. split; [reflexivity | discriminate].
  - intros s Hs Hne. unfold ltprice_filter.
    rewrite Hs, (truthy_str s Hne). simpl. unfold ltprice_cond.
    destruct (coin_price coin) as [p | e]; simpl.
    + rewrite Hs. simpl. exists TypeError. split; reflexivity.
    + exists e. split; [reflexivity | discriminate].
Qed.

Lemma wrongly_typed_filter_values_raise_witness :
  name_filter (update Kfilter_name (VInt 7) STATE) [Sample.bitcoin]
  = Raise AttributeError /\
  (exists e,
     gtprice_filter (update Kfilter_gtprice (VStr "1000") STATE)
       [Sample.bitcoin] = Raise e /\
     (forall p, coin_price Sample.bitcoin = Return p -> e = TypeError)).
Proof.
  destruct (wrongly_typed_filter_values_raise
              (update Kfilter_name (VInt 7) STATE) Sample.bitcoin [])
    as (H1 & _ & _).
  destruct (wrongly_typed_filter_values_raise
              (update Kfilter_gtprice (VStr "1000") STATE) Sample.bitcoin [])
    as (_ & H2 & _).
  split.
  - apply H1; [reflexivity | discriminate].
  - apply (H2 "1000"); [reflexivity | discriminate].
Defined.

End MoreFilterEngine.

(* ================================================================== *)
(** * Letter case and narrowing *)
(* ================================================================== *)

Lemma str_app_assoc (a b c : string) :
  ((a ++ b) ++ c)%string = (a ++ (b ++ c))%string.
Proof. induction a as [| x a IH]; simpl; [reflexivity | rewrite IH; reflexivity]. Qed.

Lemma lower_eqb_empty (s s' : string) :
  lower s = lower s' -> String.eqb s "" = String.eqb s' "".
Proof. destruct s, s'; simpl; intros H; try reflexivity; discriminate. Qed.

Lemma occurs_in_trans (a b c : string) :
  occurs_in a b -> occurs_in b c -> occurs_in a c.
Proof.
  intros (p & q & ->) (p' & q' & ->).
  exists (p' ++ p)%string, (q ++ q')%string.
  rewrite !str_app_assoc. reflexivity.
Qed.

Lemma lower_nonempty (s : string) : s <> "" <-> lower s <> "".
Proof. destruct s; simpl; split; intros H E; try discriminate; apply H; reflexivity. Qed.

Lemma occurs_in_nonempty (a b : string) :
  occurs_in a b -> a <> "" -> b <> "".
Proof.
  intros (p & q & ->) Ha Hb. destruct p; simpl in Hb; [| discriminate].
  destruct a; simpl in Hb; [apply Ha; reflexivity | discriminate].
Qed.

Lemma comprehension_ext {A : Type} (c1 c2 : A -> result bool) (l : list A) :
  (forall x, c1 x = c2 x) -> comprehension c1 l = comprehension c2 l.
Proof.
  intros H. induction l as [| x l IH]; simpl; [reflexivity |].
  rewrite H, IH. reflexivity.
Qed.

Lemma float_lt_trans_int (g g' : Z) (p : pyfloat) :
  g <= g' ->
  float_lt (Finite (inject_Z g')) p = true ->
  float_lt (Finite (inject_Z g)) p = true.
Proof.
  intros Hle. destruct p as [q | neg |]; simpl; try tauto.
  rewrite !Qltb_lt. intros H.
  apply Qle_lt_trans with (y := inject_Z g'); [| exact H].
  rewrite <- Zle_Qle. exact Hle.
Qed.

Lemma float_gt_trans_int (h h' : Z) (p : pyfloat) :
  h' <= h ->
  float_lt p (Finite (inject_Z h')) = true ->
  float_lt p (Finite (inject_Z h)) = true.
Proof.
  intros Hle. destruct p as [q | neg |]; simpl; try tauto.
  rewrite !Qltb_lt. intros H.
  apply Qlt_le_trans with (y := inject_Z h'); [exact H |].
  rewrite <- Zle_Qle. exact Hle.
Qed.

Section Narrowing.

Import Bs4 Crypts.

(** The letter case of the filter text does not matter: two texts with
    the same lower-case form give the same run, on every state and
    every row list. *)
Theorem filter_text_case_is_ignored (st : State) (s s' : string)
  (l : list node) :
  lower s = lower s' ->
  applyFilters (update Kfilter_name (VStr s) st) l
  = applyFilters (update Kfilter_name (VStr s') st) l.
Proof.
  intros H. unfold applyFilters.
  change (row_limit (update Kfilter_name (VStr s) st) l)
    with (row_limit (update Kfilter_name (VStr s') st) l).
  destruct (row_limit (update Kfilter_name (VStr s') st) l) as [l1 | e];
    cbn [Py.bind]; [| reflexivity].
  assert (Hname : name_filter (update Kfilter_name (VStr s) st) l1
                  = name_filter (update Kfilter_name (VStr s') st) l1).
  { unfold name_filter. cbn [update filter_name truthy].
    rewrite (lower_eqb_empty s s' H).
    destruct (negb (String.eqb s' "")); [| reflexivity].
    apply comprehension_ext. intros coin. unfold name_cond.
    cbn [update filter_name lower_method]. rewrite H. reflexivity. }
  rewrite Hname. reflexivity.
Qed.

Lemma filter_text_case_is_ignored_witness :
  applyFilters (update Kfilter_name (VStr "BiT") STATE) Sample.three
  = applyFilters (update Kfilter_name (VStr "bit") STATE) Sample.three.
Proof.
  apply (filter_text_case_is_ignored STATE "BiT" "bit"). reflexivity.
Defined.

Lemma name_filter_text (st : State) (s : string) (l : list node) :
  filter_name st = VStr s -> s <> "" ->
  name_filter st l = comprehension (name_cond st) l.
Proof.
  intros H Hs. unfold name_filter. rewrite H, (truthy_str s Hs). reflexivity.
Qed.

Lemma gtprice_filter_int (st : State) (g : Z) (l : list node) :
  filter_gtprice st = VInt g -> g <> 0 ->
  gtprice_filter st l = comprehension (gtprice_cond st) l.
Proof.
  intros H Hg. unfold gtprice_filter. rewrite H. simpl.
  apply Z.eqb_neq in Hg. rewrite Hg. reflexivity.
Qed.

Lemma ltprice_filter_int (st : State) (h : Z) (l : list node) :
  filter_ltprice st = VInt h -> h <> 0 ->
  ltprice_filter st l = comprehension (ltprice_cond st) l.
Proof.
  intros H Hh. unfold ltprice_filter. rewrite H. simpl.
  apply Z.eqb_neq in Hh. rewrite Hh. reflexivity.
Qed.

(** A more specific name text only narrows: when the run with a filter
    text [t] returns, the run with a text [s] whose lower-case form
    contains the lower-case form of [t] returns too, and its rows are a
    subsequence of the other's. *)
Theorem longer_filter_text_narrows (st : State) (s t : string)
  (l out_t : list node) :
  t <> "" -> occurs_in (lower t) (lower s) ->
  applyFilters (update Kfilter_name (VStr t) st) l = Return out_t ->
  exists out_s,
    applyFilters (update Kfilter_name (VStr s) st) l = Return out_s /\
    subseq out_s out_t.
Proof.
  intros Ht Hocc H.
  assert (Hs : s <> "").
  { apply (proj2 (lower_nonempty s)).
    apply (occurs_in_nonempty (lower t)); [exact Hocc |].
    apply (proj1 (lower_nonempty t)), Ht. }
  destruct (applyFilters_steps _ l out_t H)
    as (l1 & l2 & l3 & H1 & H2 & H3 & H4).
  rewrite (name_filter_text (update Kfilter_name (VStr t) st) t l1 eq_refl Ht)
    in H2.
  destruct (comprehension_narrow
              (name_cond (update Kfilter_name (VStr s) st))
              (name_cond (update Kfilter_name (VStr t) st)) l1 l2)
    as (m2 & Hm2 & S2); [| exact H2 |].
  { intros x b _. unfold name_cond. cbn [update filter_name lower_method].
    simpl. destruct (coin_name x) as [[nm |] | e]; simpl; try discriminate.
    intros Hb. injection Hb as <-. eexists. split; [reflexivity |].
    intros Hc. apply contains_occurs. apply contains_occurs in Hc.
    apply (occurs_in_trans _ (lower s)); [exact Hocc | exact Hc]. }
  destruct (gtprice_filter_mono (update Kfilter_name (VStr t) st) m2 l2 l3
              S2 H3) as (m3 & Hm3 & S3).
  destruct (ltprice_filter_mono (update Kfilter_name (VStr t) st) m3 l3 out_t
              S3 H4) as (m4 & Hm4 & S4).
  exists m4. split; [| exact S4].
  unfold applyFilters.
  change (row_limit (update Kfilter_name (VStr s) st) l)
    with (row_limit (update Kfilter_name (VStr t) st) l).
  rewrite H1. cbn [Py.bind].
  rewrite (name_filter_text (update Kfilter_name (VStr s) st) s l1 eq_refl Hs).
  rewrite Hm2. cbn [Py.bind].
  rewrite (gtprice_filter_ext (update Kfilter_name (VStr s) st)
             (update Kfilter_name (VStr t) st) m2 eq_refl).
  rewrite Hm3. cbn [Py.bind].
  rewrite (ltprice_filter_ext (update Kfilter_name (VStr s) st)
             (update Kfilter_name (VStr t) st) m3 eq_refl).
  exact Hm4.
Qed.

Lemma longer_filter_text_narrows_witness :
  exists out_s,
    applyFilters (update Kfilter_name (VStr "bitcoin c") STATE) Sample.three
    = Return out_s /\
    subseq out_s [Sample.bitcoin; Sample.bitcoin_cash].
Proof.
  apply (longer_filter_text_narrows STATE "bitcoin c" "bit").
  - discriminate.
  - exists "", "coin c". reflexivity.
  - vm_compute. reflexivity.
Defined.

(** Tightening integer price bounds only narrows: with both bounds set
    before and after, a lower bound raised from [g] to [g'] and an upper
    bound lowered from [h] to [h'], the run with the tighter bounds
    returns whenever the other does, with a subsequence of its rows. *)
Theorem tighter_price_bounds_narrow (st : State) (g g' h h' : Z)
  (l out : list node) :
  g <> 0 -> g' <> 0 -> h <> 0 -> h' <> 0 -> g <= g' -> h' <= h ->
  applyFilters
    (update Kfilter_ltprice (VInt h) (update Kfilter_gtprice (VInt g) st)) l
  = Return out ->
  exists out',
    applyFilters
      (update Kfilter_ltprice (VInt h') (update Kfilter_gtprice (VInt g') st))
      l = Return out' /\
    subseq out' out.
Proof.
  intros Hg Hg' Hh Hh' Hgg Hhh H.
  remember (update Kfilter_ltprice (VInt h)
              (update Kfilter_gtprice (VInt g) st)) as loose eqn:El.
  remember (update Kfilter_ltprice (VInt h')
              (update Kfilter_gtprice (VInt g') st)) as strict eqn:Es.
  assert (Lg : filter_gtprice loose = VInt g) by (subst loose; reflexivity).
  assert (Lh : filter_ltprice loose = VInt h) by (subst loose; reflexivity).
  assert (Sg : filter_gtprice strict = VInt g') by (subst strict; reflexivity).
  assert (Sh : filter_ltprice strict = VInt h') by (subst strict; reflexivity).
  assert (Er : rows strict = rows loose) by (subst; reflexivity).
  assert (En : filter_name strict = filter_name loose) by (subst; reflexivity).
  clear El Es.
  destruct (applyFilters_steps loose l out H)
    as (l1 & l2 & l3 & H1 & H2 & H3 & H4).
  rewrite (gtprice_filter_int loose g l2 Lg Hg) in H3.
  destruct (comprehension_narrow (gtprice_cond strict) (gtprice_cond loose)
              l2 l3) as (m3 & Hm3 & S3); [| exact H3 |].
  { intros x b _. unfold gtprice_cond, lt. rewrite Lg, Sg.
    destruct (coin_price x) as [p | e]; simpl; [| discriminate].
    intros Hb. injection Hb as <-. eexists. split; [reflexivity |].
    apply float_lt_trans_int, Hgg. }
  rewrite (ltprice_filter_int loose h l3 Lh Hh) in H4.
  destruct (comprehension_subseq (ltprice_cond loose) m3 l3 out S3 H4)
    as (m4 & Hm4 & S4).
  destruct (comprehension_narrow (ltprice_cond strict) (ltprice_cond loose)
              m3 m4) as (m5 & Hm5 & S5); [| exact Hm4 |].
  { intros x b _. unfold ltprice_cond, gt. rewrite Lh, Sh.
    destruct (coin_price x) as [p | e]; simpl; [| discriminate].
    intros Hb. injection Hb as <-. eexists. split; [reflexivity |].
    apply float_gt_trans_int, Hhh. }
  exists m5. split; [| eapply subseq_trans; eassumption].
  unfold applyFilters.
  assert (R : row_limit strict l = row_limit loose l)
    by (unfold row_limit; rewrite Er; reflexivity).
  rewrite R, H1. cbn [Py.bind].
  rewrite (name_filter_ext strict loose l1 En), H2. cbn [Py.bind].
  rewrite (gtprice_filter_int strict g' l2 Sg Hg'), Hm3. cbn [Py.bind].
  rewrite (ltprice_filter_int strict h' m3 Sh Hh'). exact Hm5.
Qed.

Lemma tighter_price_bounds_narrow_witness :
  exists out',
    applyFilters
      (update Kfilter_ltprice (VInt 40000)
         (update Kfilter_gtprice (VInt 1000) STATE)) Sample.three
    = Return out' /\
    subseq out' [Sample.ethereum; Sample.bitcoin_cash].
Proof.
  apply (tighter_price_bounds_narrow STATE 100 1000 50000 40000);
    try lia.
  vm_compute. reflexivity.
Defined.

End Narrowing.

(* ================================================================== *)
(** * The rendered window *)
(* ================================================================== *)

Section WindowFacts.

Import Bs4 Crypts.

Lemma applyFilters_subseq (st : State) (l out : list node) :
  applyFilters st l = Return out -> subseq out l.
Proof.
  intros H.
  destruct (applyFilters_steps st l out H)
    as (l1 & l2 & l3 & H1 & H2 & H3 & H4).
  eapply subseq_trans; [eapply ltprice_filter_subseq, H4 |].
  eapply subseq_trans; [eapply gtprice_filter_subseq, H3 |].
  eapply subseq_trans; [eapply name_filter_subseq, H2 |].
  eapply row_limit_subseq, H1.
Qed.

Lemma applyFilters_bounded (st : State) (l out : list node) (n : Z) :
  rows st = VInt n -> 0 < n ->
  applyFilters st l = Return out -> Z.of_nat (List.length out) <= n.
Proof.
  intros Hrows Hpos H.
  destruct (applyFilters_steps st l out H)
    as (l1 & l2 & l3 & H1 & H2 & H3 & H4).
  assert (S : subseq out l1).
  { eapply subseq_trans; [eapply ltprice_filter_subseq, H4 |].
    eapply subseq_trans; [eapply gtprice_filter_subseq, H3 |].
    eapply name_filter_subseq, H2. }
  rewrite (row_limit_any_int st n l Hrows) in H1.
  apply Z.ltb_lt in Hpos. rewrite Hpos in H1. injection H1 as <-.
  apply subseq_length in S. rewrite length_firstn in S. lia.
Qed.

Lemma applyFilters_name_sound (st : State) (s : string) (l out : list node)
  (coin : node) :
  filter_name st = VStr s -> s <> "" ->
  applyFilters st l = Return out -> In coin out -> name_matches s coin.
Proof.
  intros Hs Hne H Hin.
  destruct (applyFilters_steps st l out H)
    as (l1 & l2 & l3 & H1 & H2 & H3 & H4).
  apply (subseq_In _ _ coin (ltprice_filter_subseq st _ _ H4)) in Hin.
  apply (subseq_In _ _ coin (gtprice_filter_subseq st _ _ H3)) in Hin.
  apply (name_filter_In st s l1 l2 coin Hs Hne H2) in Hin. apply Hin.
Qed.

(** A run of [_define_body] that returns, taken apart. *)
Lemma define_body_Return (st : State) (soup : node) (w : Window) :
  _define_body st soup = Return w ->
  exists trs shown rendered,
    table_rows soup = Return trs /\
    applyFilters st trs = Return shown /\
    w = table_header :: Plain "" :: rendered /\
    Forall2 (fun coin r => render_row coin = Return r) shown rendered.
Proof.
  unfold _define_body. intros H. bind_inv H. bind_inv H. bind_inv H.
  injection H as <-. exists a, a0, a1.
  split; [exact Ha |]. split; [exact Ha0 |]. split; [reflexivity |].
  apply for_each_Forall2, Ha1.
Qed.

End WindowFacts.

Section Window.

Import Bs4 Crypts.

(** The caret and the colour of a trend label follow the marker: red
    with the caret down when a tag with the class [icon-Caret-down] is
    somewhere below the cell, green with the caret up when none is; the
    label's text is the cell's text.  A cell that is a bare string has
    no label. *)
Theorem trend_label_follows_marker (cs : list node) (i : nat) (lab : Label) :
  trend_label cs i = Return lab ->
  exists name cls sub,
    nth_error cs i = Some (Tag name cls sub) /\
    label_text lab = text (Tag name cls sub) /\
    ((marked_down (Tag name cls sub) /\
      style lab = "rid" /\ glyph lab = Some Down) \/
     (~ marked_down (Tag name cls sub) /\
      style lab = "griin" /\ glyph lab = Some Up)).
Proof.
  unfold trend_label, index. intros H.
  destruct (nth_error cs i) as [[s | name cls sub] |]; simpl in H;
    try discriminate.
  exists name, cls, sub. split; [reflexivity |].
  destruct (find (has_class "icon-Caret-down")
              (flat_map (fun c => c :: descendants c) sub)) as [d |] eqn:Hf;
    injection H as <-; (split; [reflexivity |]).
  - left. split; [| split; reflexivity].
    apply find_some in Hf. exists d. exact Hf.
  - right. split; [| split; reflexivity].
    intros (d & Hin & Hc).
    pose proof (find_none _ _ Hf d Hin) as Hn. simpl in Hn.
    rewrite Hn in Hc. discriminate.
Qed.

Lemma trend_label_follows_marker_witness :
  exists name cls sub,
    nth_error [Sample.td []; Sample.td [Sample.span ["icon-Caret-down"] []]]
      1 = Some (Tag name cls sub) /\
    label_text {| style := "rid"; glyph := Some Down; label_text := "" |}
    = text (Tag name cls sub) /\
    ((marked_down (Tag name cls sub) /\
      style {| style := "rid"; glyph := Some Down; label_text := "" |} = "rid"
      /\ glyph {| style := "rid"; glyph := Some Down; label_text := "" |}
         = Some Down) \/
     (~ marked_down (Tag name cls sub) /\
      style {| style := "rid"; glyph := Some Down; label_text := "" |}
      = "griin" /\
      glyph {| style := "rid"; glyph := Some Down; label_text := "" |}
      = Some Up)).
Proof.
  apply (trend_label_follows_marker
           [Sample.td []; Sample.td [Sample.span ["icon-Caret-down"] []]] 1).
  reflexivity.
Defined.

Lemma render_row_shape (coin : node) (r : widget) :
  render_row coin = Return r ->
  exists cs cell price hour day cap,
    contents (Some coin) = Return cs /\
    nth_error cs 2 = Some cell /\
    r = Splitter [bold_gradient (text cell); price; hour; day; cap].
Proof.
  unfold render_row. intros H. bind_inv H. bind_inv H.
  bind_inv H. bind_inv H. bind_inv H. bind_inv H. bind_inv H. bind_inv H.
  bind_inv H. injection H as <-.
  unfold index in Ha0. destruct (nth_error a 2) as [cell |] eqn:E;
    [| discriminate].
  injection Ha0 as <-. eauto 10.
Qed.

(** The body window, when [_define_body] returns one, is the header
    line, a blank line, and then one splitter of five labels for each
    selected row, in the order of the rows; the selected rows are a
    subsequence of the [tr] tags of the table.  With an [int] row limit
    [n > 0] the window has at most [n + 2] widgets. *)
Theorem body_window_has_a_row_per_selected_record (st : State) (soup : node)
  (w : Window) :
  _define_body st soup = Return w ->
  exists trs shown rendered,
    table_rows soup = Return trs /\
    applyFilters st trs = Return shown /\
    subseq shown trs /\
    w = table_header :: Plain "" :: rendered /\
    Forall2 (fun coin r =>
               render_row coin = Return r /\
               exists name price hour day cap,
                 r = Splitter [name; price; hour; day; cap])
            shown rendered /\
    List.length w = (2 + List.length shown)%nat /\
    (forall n, rows st = VInt n -> 0 < n -> Z.of_nat (List.length w) <= n + 2).
Proof.
  intros H.
  destruct (define_body_Return st soup w H)
    as (trs & shown & rendered & Ha & Ha0 & -> & F).
  exists trs, shown, rendered.
  assert (Hlen : List.length rendered = List.length shown)
    by (symmetry; apply (Forall2_length F)).
  split; [exact Ha |]. split; [exact Ha0 |].
  split; [apply (applyFilters_subseq st trs shown Ha0) |].
  split; [reflexivity |]. split; [| split].
  - clear Hlen Ha0 H. induction F as [| coin r shown rendered Hr F IH];
      [constructor |]. constructor; [| exact IH].
    split; [exact Hr |].
    destruct (render_row_shape coin r Hr)
      as (cs & cell & price & hour & day & cap & _ & _ & ->).
    eauto 6.
  - simpl. rewrite Hlen. reflexivity.
  - intros n Hrows Hpos.
    pose proof (applyFilters_bounded st trs shown n Hrows Hpos Ha0) as Hb.
    simpl. rewrite Hlen. lia.
Qed.

Lemma body_window_has_a_row_per_selected_record_witness :
  exists trs shown rendered,
    table_rows (Sample.page Sample.three) = Return trs /\
    applyFilters (Sample.with_name "bit" (Sample.with_rows 2 STATE)) trs
    = Return shown /\
    subseq shown trs /\
    List.length rendered = 1%nat /\
    Forall2 (fun coin r =>
               render_row coin = Return r /\
               exists name price hour day cap,
                 r = Splitter [name; price; hour; day; cap])
            shown rendered.
Proof.
  destruct (_define_body (Sample.with_name "bit" (Sample.with_rows 2 STATE))
              (Sample.page Sample.three)) as [w |] eqn:Hw;
    [| vm_compute in Hw; discriminate Hw].
  destruct (body_window_has_a_row_per_selected_record _ _ w Hw)
    as (trs & shown & rendered & H1 & H2 & H3 & H4 & H5 & _ & _).
  exists trs, shown, rendered. repeat split; try assumption.
  vm_compute in Hw. injection Hw as Hw. rewrite <- Hw in H4.
  injection H4 as <-. reflexivity.
Defined.

End Window.

(* ================================================================== *)
(** * The screenshot name *)
(* ================================================================== *)

Lemma endswith_suffix (suffix s : string) :
  endswith suffix s = true <-> has_suffix suffix s.
Proof.
  unfold has_suffix. induction s as [| c s IH].
  - change (endswith suffix "") with (String.eqb "" suffix || false).
    rewrite orb_false_r, String.eqb_eq. split.
    + intros <-. exists ""%string. reflexivity.
    + intros [before H]. destruct before; simpl in H; [exact H | discriminate].
  - change (endswith suffix (String c s))
      with (String.eqb (String c s) suffix || endswith suffix s).
    rewrite orb_true_iff, String.eqb_eq, IH. split.
    + intros [<- | [before ->]].
      * exists ""%string. reflexivity.
      * exists (String c before). reflexivity.
    + intros [before H]. destruct before as [| b before]; simpl in H.
      * left. exact H.
      * right. injection H as _ H. exists before. exact H.
Qed.

Section Screenshot.

Import Crypts.

(** The name the screenshot is saved under always ends with [.svg] and
    is never empty; a name that already ends with [.svg] is kept as
    typed, any other gets [.svg] appended, and an empty field gives
    [screenshot.svg]; putting a saved name through the dialog again
    leaves it unchanged. *)
Theorem screenshot_name_ends_with_svg (value : string) :
  has_suffix ".svg" (_finish value) /\
  _finish value <> "" /\
  _finish (_finish value) = _finish value /\
  (value = "" -> _finish value = "screenshot.svg") /\
  (value <> "" -> has_suffix ".svg" value -> _finish value = value) /\
  (value <> "" -> ~ has_suffix ".svg" value ->
   _finish value = (value ++ ".svg")%string).
Proof.
  assert (Hsuf : has_suffix ".svg" (_finish value)).
  { unfold _finish.
    destruct (endswith ".svg" (if String.eqb value "" then _ else _)) eqn:E.
    - apply endswith_suffix, E.
    - eexists. reflexivity. }
  assert (Hne : _finish value <> "").
  { destruct Hsuf as [before H]. rewrite H.
    destruct before; discriminate. }
  split; [exact Hsuf |]. split; [exact Hne |]. split; [| split; [| split]].
  - apply endswith_suffix in Hsuf. unfold _finish at 1.
    apply String.eqb_neq in Hne. rewrite Hne, Hsuf. reflexivity.
  - intros ->. reflexivity.
  - intros Hv Hs. apply endswith_suffix in Hs. unfold _finish.
    apply String.eqb_neq in Hv. rewrite Hv, Hs. reflexivity.
  - intros Hv Hs. unfold _finish. apply String.eqb_neq in Hv. rewrite Hv.
    destruct (endswith ".svg" value) eqn:E; [| reflexivity].
    exfalso. apply Hs, endswith_suffix, E.
Qed.

Lemma screenshot_name_ends_with_svg_witness :
  _finish "" = "screenshot.svg" /\
  _finish "chart.svg" = "chart.svg" /\
  _finish "chart.png" = "chart.png.svg".
Proof.
  destruct (screenshot_name_ends_with_svg "") as (_ & _ & _ & H1 & _ & _).
  destruct (screenshot_name_ends_with_svg "chart.svg")
    as (_ & _ & _ & _ & H2 & _).
  destruct (screenshot_name_ends_with_svg "chart.png")
    as (_ & _ & _ & _ & _ & H3).
  split; [apply H1; reflexivity |]. split.
  - apply H2; [discriminate |]. exists "chart"%string. reflexivity.
  - apply H3; [discriminate |]. intros Hs.
    apply endswith_suffix in Hs. discriminate Hs.
Defined.

End Screenshot.

(* ================================================================== *)
(** * Where the exceptions of the filter come from *)
(* ================================================================== *)

Lemma comprehension_Raise_inv {A : Type} (cond : A -> result bool)
  (l : list A) (e : exn) :
  comprehension cond l = Raise e -> exists x, In x l /\ cond x = Raise e.
Proof.
  induction l as [| x l IH]; simpl; intros H; [discriminate |].
  destruct (cond x) as [b |] eqn:Hx; simpl in H.
  - destruct (comprehension cond l) as [r |]; simpl in H; [discriminate |].
    destruct (IH H) as (y & Hy & Hc). exists y. split; [right |]; assumption.
  - injection H as ->. exists x. split; [left; reflexivity | exact Hx].
Qed.

Section Exceptions.

Import Bs4 Crypts.

Lemma index_Raise {A : Type} (l : list A) (i : nat) (e : exn) :
  index l i = Raise e -> e = IndexError /\ (List.length l <= i)%nat.
Proof.
  unfold index. destruct (nth_error l i) eqn:E; [discriminate |].
  intros H. injection H as <-. split; [reflexivity |].
  apply nth_error_None, E.
Qed.

Lemma row_limit_Raise (st : State) (l : list node) (e : exn) :
  row_limit st l = Raise e ->
  e = TypeError /\
  (number (rows st) = None \/ exists f, rows st = VFloat f).
Proof.
  unfold row_limit, gt.
  destruct (rows st) as [| b | z | f | s]; simpl.
  - intros H. injection H as <-. tauto.
  - destruct (Qltb _ _); discriminate.
  - destruct (Qltb _ _); discriminate.
  - intros H. assert (E : e = TypeError).
    { destruct f as [q | [] |]; simpl in H;
        try destruct (Qltb 0 q); try discriminate; congruence. }
    split; [exact E |]. right. eauto.
  - intros H. injection H as <-. tauto.
Qed.

Lemma name_cond_Raise (st : State) (coin : node) (e : exn) :
  name_cond st coin = Raise e ->
  e = AttributeError \/
  (e = IndexError /\
   exists cs, contents (Some coin) = Return cs /\ (List.length cs < 4)%nat).
Proof.
  unfold name_cond, coin_name.
  destruct (lower_method (filter_name st)) as [needle |] eqn:Hl.
  2:{ destruct (filter_name st); simpl in Hl; try discriminate;
        injection Hl as <-; intros H; injection H as <-; tauto. }
  cbn [Py.bind].
  destruct (contents (Some coin)) as [cs |] eqn:Hcs.
  2:{ destruct coin; simpl in Hcs; try discriminate.
      injection Hcs as <-. intros H; injection H as <-. tauto. }
  cbn [Py.bind].
  destruct (index cs 2) as [cell |] eqn:Hi.
  2:{ apply index_Raise in Hi. destruct Hi as [-> Hlen].
      cbn [Py.bind]. intros H. injection H as <-. right.
      split; [reflexivity |]. exists cs. split; [reflexivity | lia]. }
  cbn [Py.bind].
  destruct cell as [t | nm cls sub]; simpl.
  { intros H. injection H as <-. tauto. }
  destruct (find _ _) as [p |]; simpl.
  - destruct (get_string p); simpl; [discriminate |].
    intros H. injection H as <-. tauto.
  - intros H. injection H as <-. tauto.
Qed.

Lemma coin_price_Raise (coin : node) (e : exn) :
  coin_price coin = Raise e ->
  e = AttributeError \/
  (e = IndexError /\
   exists cs, contents (Some coin) = Return cs /\ (List.length cs < 4)%nat) \/
  (e = ValueError /\
   exists t, coin_price_text coin = Return t /\
             float_of_str t = Raise ValueError).
Proof.
  unfold coin_price, coin_price_text.
  destruct (contents (Some coin)) as [cs |] eqn:Hcs.
  2:{ destruct coin; simpl in Hcs; try discriminate.
      injection Hcs as <-. intros H; injection H as <-. tauto. }
  cbn [Py.bind].
  destruct (index cs 3) as [cell |] eqn:Hi.
  2:{ apply index_Raise in Hi. destruct Hi as [-> Hlen].
      cbn [Py.bind]. intros H. injection H as <-. right. left.
      split; [reflexivity |]. exists cs. split; [reflexivity | lia]. }
  cbn [Py.bind]. intros H.
  pose proof (float_of_str_exn _ _ H) as ->.
  right. right. split; [reflexivity |]. exists (text cell).
  split; [reflexivity | exact H].
Qed.

Lemma price_cond_Raise (st : State) (coin : node) (e : exn) :
  gtprice_cond st coin = Raise e \/ ltprice_cond st coin = Raise e ->
  coin_price coin = Raise e \/
  (e = TypeError /\
   (number (filter_gtprice st) = None \/ number (filter_ltprice st) = None)).
Proof.
  unfold gtprice_cond, ltprice_cond, lt, gt.
  destruct (coin_price coin) as [p | e']; cbn [Py.bind].
  - intros [H | H]; right.
    + destruct (number (filter_gtprice st)); [discriminate |].
      injection H as <-. tauto.
    + destruct (number (filter_ltprice st)); [discriminate |].
      injection H as <-. tauto.
  - intros [H | H]; left; injection H as <-; reflexivity.
Qed.

(** An exception of [applyFilters] tells its cause.  A [ValueError] is
    the price text of one of the rows, rejected by [float] while a price
    bound is set.  An [IndexError] is a row with fewer than four cells.
    A [TypeError] is a row limit that is no [int], or a price bound that
    is no number. *)
Theorem filter_exceptions_tell_their_cause (st : State) (l : list node)
  (e : exn) :
  applyFilters st l = Raise e ->
  (e = ValueError ->
   (truthy (filter_gtprice st) = true \/ truthy (filter_ltprice st) = true) /\
   exists coin t,
     In coin l /\ coin_price_text coin = Return t /\
     float_of_str t = Raise ValueError) /\
  (e = IndexError ->
   exists coin cs,
     In coin l /\ contents (Some coin) = Return cs /\
     (List.length cs < 4)%nat) /\
  (e = TypeError ->
   number (rows st) = None \/ (exists f, rows st = VFloat f) \/
   number (filter_gtprice st) = None \/ number (filter_ltprice st) = None).
Proof.
  unfold applyFilters. intros H.
  destruct (row_limit st l) as [l1 | e1] eqn:H1; cbn [Py.bind] in H.
  2:{ injection H as <-. destruct (row_limit_Raise st l e1 H1) as [-> Hr].
      split; [discriminate |]. split; [discriminate |]. intros _. tauto. }
  pose proof (row_limit_subseq st l l1 H1) as S1.
  destruct (name_filter st l1) as [l2 | e2] eqn:H2; cbn [Py.bind] in H.
  2:{ injection H as <-. unfold name_filter in H2.
      destruct (truthy (filter_name st)); [| discriminate].
      destruct (comprehension_Raise_inv _ _ _ H2) as (x & Hx & Hc).
      destruct (name_cond_Raise st x e2 Hc) as [-> | [-> (cs & Hcs & Hlen)]].
      - repeat split; discriminate.
      - split; [discriminate |]. split; [| discriminate].
        intros _. exists x, cs. split; [| split; assumption].
        apply (subseq_In _ _ x S1 Hx). }
  pose proof (name_filter_subseq st l1 l2 H2) as S2.
  assert (Hprice : forall x, In x l2 ->
            (gtprice_cond st x = Raise e /\ truthy (filter_gtprice st) = true)
            \/ (ltprice_cond st x = Raise e /\
                truthy (filter_ltprice st) = true) ->
            (e = ValueError ->
             (truthy (filter_gtprice st) = true \/
              truthy (filter_ltprice st) = true) /\
             exists coin t,
               In coin l /\ coin_price_text coin = Return t /\
               float_of_str t = Raise ValueError) /\
            (e = IndexError ->
             exists coin cs,
               In coin l /\ contents (Some coin) = Return cs /\
               (List.length cs < 4)%nat) /\
            (e = TypeError ->
             number (rows st) = None \/ (exists f, rows st = VFloat f) \/
             number (filter_gtprice st) = None \/
             number (filter_ltprice st) = None)).
  { intros x Hx Hc.
    assert (Hin : In x l)
      by (apply (subseq_In _ _ x S1), (subseq_In _ _ x S2), Hx).
    assert (Hset : truthy (filter_gtprice st) = true \/
                   truthy (filter_ltprice st) = true) by tauto.
    destruct (price_cond_Raise st x e) as [Hp | [-> Hn]]; [tauto | |].
    - destruct (coin_price_Raise x e Hp)
        as [-> | [[-> (cs & Hcs & Hlen)] | [-> (t & Ht & Hf)]]].
      + repeat split; discriminate.
      + split; [discriminate |]. split; [| discriminate].
        intros _. exists x, cs. repeat split; assumption.
      + split; [| split; discriminate].
        intros _. split; [exact Hset |]. exists x, t.
        repeat split; assumption.
    - split; [discriminate |]. split; [discriminate |]. intros _. tauto. }
  destruct (gtprice_filter st l2) as [l3 | e3] eqn:H3; cbn [Py.bind] in H.
  2:{ injection H as <-. unfold gtprice_filter in H3.
      destruct (truthy (filter_gtprice st)) eqn:T; [| discriminate].
      destruct (comprehension_Raise_inv _ _ _ H3) as (x & Hx & Hc).
      apply (Hprice x Hx). left. split; [exact Hc | reflexivity]. }
  pose proof (gtprice_filter_subseq st l2 l3 H3) as S3.
  unfold ltprice_filter in H.
  destruct (truthy (filter_ltprice st)) eqn:T; [| discriminate].
  destruct (comprehension_Raise_inv _ _ _ H) as (x & Hx & Hc).
  apply (Hprice x (subseq_In _ _ x S3 Hx)). right.
  split; [exact Hc | reflexivity].
Qed.

Lemma filter_exceptions_tell_their_cause_witness :
  ((truthy (filter_gtprice (Sample.with_min 1000 STATE)) = true \/
    truthy (filter_ltprice (Sample.with_min 1000 STATE)) = true) /\
   exists coin t,
     In coin [Sample.bitcoin; Sample.dollar] /\
     coin_price_text coin = Return t /\
     float_of_str t = Raise ValueError) /\
  (exists coin cs,
     In coin [Sample.bitcoin; Sample.broken] /\
     contents (Some coin) = Return cs /\ (List.length cs < 4)%nat).
Proof.
  split.
  - destruct (filter_exceptions_tell_their_cause (Sample.with_min 1000 STATE)
                [Sample.bitcoin; Sample.dollar] ValueError) as (H & _ & _);
      [vm_compute; reflexivity |].
    apply H. reflexivity.
  - destruct (filter_exceptions_tell_their_cause (Sample.with_name "bit" STATE)
                [Sample.bitcoin; Sample.broken] IndexError) as (_ & H & _);
      [vm_compute; reflexivity |].
    apply H. reflexivity.
Defined.

End Exceptions.
